(** * flask-restalchemy: resources and the DateTime serializer

    A shallow embedding of
    - [flask_restalchemy/resources/resources.py]: [unpack],
      [load_request_data], [BaseResource], [ModelResource],
      [ToManyRelationResource] and [CollectionPropertyResource];
    - [flask_restalchemy/serialization/serializer.py]: [DateTimeSerializer].

    Python dictionaries are finite maps, the SQLAlchemy session is an
    explicit state threaded through a small state-and-exception monad, and
    every call on the session or on a serializer hook is recorded in a
    trace, in program order. *)

From Stdlib Require Import ZArith Lia Ascii String List.
From stdpp Require Import gmap strings list fin_maps.

Set Warnings "-register-all".
Open Scope Z_scope.

(* ===================================================================== *)
(** ** Wire documents and Python values *)
(* ===================================================================== *)

(** What [json.loads] produces for the members of a request body.  Numbers
    are the integers (floats play no role in the resources). *)
Inductive json : Type :=
  | JNull
  | JBool (b : bool)
  | JNum (n : Z)
  | JStr (s : string)
  | JArr (items : list json)
  | JObj (members : list (string * json)).

(** A document: the [dict] a serializer dumps and loads. *)
Abbreviation Doc := (gmap string json).

(** [d.update(other)]: the keys of [other] override, the rest of [d] stays. *)
Definition dict_update (d other : Doc) : Doc := other ∪ d.

(** The values a view function returns.  Only the distinction between a
    tuple and anything else, and the length of a tuple, matter to
    [unpack]. *)
Inductive value : Type :=
  | VNone
  | VInt (n : Z)
  | VStr (s : string)
  | VDict (d : Doc)
  | VList (items : list value)
  | VTuple (items : list value).

Definition NOT_FOUND_ERROR : string := "Resource not found in the database!".

(** [unpack]: "Return a three tuple of data, code, and headers".  A tuple
    assignment with the wrong number of targets raises [ValueError], which
    the function swallows before trying the next shape. *)
Definition unpack (v : value) : value * value * value :=
  match v with
  | VTuple items =>
      match items with
      | [data; code; headers] => (data, code, headers)
      | _ =>
          match items with
          | [data; code] => (data, code, VDict ∅)
          | _ => (v, VInt 200, VDict ∅)
          end
      end
  | _ => (v, VInt 200, VDict ∅)
  end.

Definition is_tuple (v : value) : bool :=
  match v with VTuple _ => true | _ => false end.

(* ===================================================================== *)
(** ** Primary keys *)
(* ===================================================================== *)

(** A primary key as the URL converters hand it over: an [int] or a [str]. *)
Inductive pyid : Type :=
  | IdInt (n : Z)
  | IdStr (s : string).

#[global] Instance pyid_eq_dec : EqDecision pyid.
Proof. solve_decision. Defined.

#[global] Instance pyid_countable : Countable pyid.
Proof.
  refine (inj_countable'
            (λ k, match k with IdInt n => inl n | IdStr s => inr s end)
            (λ x, match x with inl n => IdInt n | inr s => IdStr s end) _).
  by intros [].
Defined.

(** Python truth value of a key: [0] and [''] are false. *)
Definition id_truthy (k : pyid) : bool :=
  match k with
  | IdInt n => negb (n =? 0)
  | IdStr s => negb (String.eqb s "")
  end.

(** [if id:] for an argument that defaults to [None]. *)
Definition truthy (id : option pyid) : bool :=
  match id with
  | Some k => id_truthy k
  | None => false
  end.

(* ===================================================================== *)
(** ** The request *)
(* ===================================================================== *)

(** [flask.request] as the resources read it: [data] is the body (here
    already decoded: [Some d] for a non-empty body holding the JSON object
    [d]), [form] the form fields, [args] the query string. *)
Record Request : Type := {
  req_data : option Doc;
  req_form : gmap string string;
  req_args : gmap string string;
}.

(** [load_request_data]: "Returns request data as dict." *)
Definition load_request_data (request : Request) : Doc :=
  match req_data request with
  | Some d => d
  | None => JStr <$> req_form request
  end.

(* ===================================================================== *)
(** ** Collaborators

    The resources are written against three collaborators whose code lives
    outside the two modelled files; they enter as interfaces. *)
(* ===================================================================== *)

(** [ModelSerializer]: [dump(model)] and [load(serialized, existing_model)].
    Its four commit hooks take no part in the computation of a response;
    their calls are recorded in the trace. *)
Class ModelSerializer (Model : Type) : Type := {
  dump : Model → Doc;
  load : Doc → option Model → Model;
}.

(** The declarative model class: the store fills in the generated primary
    key of an instance when it inserts it. *)
Class DeclarativeModel (Model : Type) : Type := {
  assign_pk : pyid → Model → Model;
}.

(** What [query_from_request] answers: a document (a page) or a list of
    documents; never a tuple. *)
Inductive listing : Type :=
  | Page (d : Doc)
  | Items (ds : list Doc).

Definition listing_value (l : listing) : value :=
  match l with
  | Page d => VDict d
  | Items ds => VList (VDict <$> ds)
  end.

(** [query_from_request(model, serializer, request, query)]: filters and
    paginates the instances of [query] as the query string asks. *)
Class QueryBuilder (Model : Type) : Type := {
  query_from_request : Request → list Model → listing;
}.

(** The primary-key column of the resource model.  [Query.get(ident)]
    receives the 'id' member of a request document as it is: which row,
    if any, a number, a string, a boolean or a list identifies is decided
    by the column type and the database (for an integer column the number
    2 is key 2, and so are, on most databases, the string of its digits
    and the list of the one number), not by the resources.  So how a
    document value identifies a key enters as a parameter. *)
Class PrimaryKeyColumn (Model : Type) : Type := {
  identify : json → option pyid;
}.

(** The key a JSON member denotes when it is handed to [Query.get]:
    [None] loads no object, any other value is for the column to
    identify. *)
Definition key_of_json {Model : Type} `{!PrimaryKeyColumn Model} (j : json)
  : option pyid :=
  match j with
  | JNull => None
  | _ => identify j
  end.

(* ===================================================================== *)
(** ** The session *)
(* ===================================================================== *)

Section Session.

Context {Model : Type}.
Context `{!ModelSerializer Model, !DeclarativeModel Model, !QueryBuilder Model}.

(** A model instance as a handler holds it: the row it is attached to
    ([None] while the instance is transient) and its attribute state. *)
Record Obj : Type := mkObj {
  o_row : option pyid;
  o_state : Model;
}.

(** A row of the related (parent) model: the value of its relation
    attribute.  [rel_dynamic] tells a query object (one with [paginate])
    from an [InstrumentedList]; the members are kept by key, so that a
    member and the row of the same key are one instance. *)
Record Related : Type := mkRelated {
  rel_dynamic : bool;
  rel_members : list pyid;
}.

Inductive Event : Type :=
  | SessionAdd (o : Obj)
  | SessionDelete (o : Obj)
  | SessionFlush
  | SessionCommit
  | CollectionAppend (parent : pyid) (o : Obj)
  | BeforePostCommit (o : Obj)
  | AfterPostCommit (o : Obj)
  | BeforePutCommit (o : Obj)
  | AfterPutCommit (o : Obj)
  | Warning (msg : string).

Record Session : Type := mkSession {
  rows : gmap pyid Model;        (* the table of the resource model *)
  related : gmap pyid Related;   (* the table of the related model *)
  deleted : list pyid;           (* session.deleted *)
  trace : list Event;            (* calls made so far, oldest first *)
}.

Inductive Exn : Type :=
  | MultipleResultsFound.

Inductive Result (A : Type) : Type :=
  | Ok (a : A) (s : Session)
  | Raise (e : Exn).
#[global] Arguments Ok {A} a s.
#[global] Arguments Raise {A} e.

(** Computations on the session that may raise. *)
Definition M (A : Type) : Type := Session → Result A.

Definition ret {A} (a : A) : M A := λ s, Ok a s.

Definition bind {A B} (m : M A) (k : A → M B) : M B :=
  λ s, match m s with
       | Ok a s' => k a s'
       | Raise e => Raise e
       end.

Definition raise {A} (e : Exn) : M A := λ _, Raise e.

Definition emit (ev : Event) : M unit :=
  λ s, Ok tt (mkSession (rows s) (related s) (deleted s) (trace s ++ [ev])).

End Session.

Declare Scope session_scope.
Delimit Scope session_scope with session.
Notation "x <- c ;; k" := (bind c (fun x => k))
  (at level 100, c at next level, right associativity) : session_scope.
Notation "c ;;; k" := (bind c (fun _ => k))
  (at level 100, right associativity) : session_scope.

Open Scope session_scope.

Section Resources.

Context {Model : Type}.
Context `{!ModelSerializer Model, !DeclarativeModel Model, !QueryBuilder Model}.
Context `{!PrimaryKeyColumn Model}.

#[local] Abbreviation Session := (@Session Model).
#[local] Abbreviation Obj := (@Obj Model).
#[local] Abbreviation M := (@M Model).

(** *** Session primitives *)

(** The key the store generates for the next inserted row: one more than
    the largest integer key in the table. *)
Definition max_int_key (t : gmap pyid Model) : Z :=
  map_fold (λ k _ acc, match k with IdInt n => Z.max n acc | IdStr _ => acc end) 0 t.

Definition fresh_pk (t : gmap pyid Model) : pyid := IdInt (1 + max_int_key t).

(** An instance enters the unit of work.  A transient instance gets its
    row (and its generated key); an instance that already has a row
    registers its current state for that row.  All reads of a new instance
    in the resources happen after the commit that inserts it, so the key is
    assigned here. *)
Definition attach (o : Obj) (s : Session) : Obj * Session :=
  match o_row o with
  | Some k =>
      (o, mkSession (<[k := o_state o]> (rows s)) (related s) (deleted s) (trace s))
  | None =>
      let k := fresh_pk (rows s) in
      let m := assign_pk k (o_state o) in
      (mkObj (Some k) m,
       mkSession (<[k := m]> (rows s)) (related s) (deleted s) (trace s))
  end.

(** [session.add(obj)].  Python mutates the instance in place; the
    embedding hands the instance back. *)
Definition session_add (o : Obj) : M Obj :=
  λ s, let '(o', s') := attach o s in
       Ok o' (mkSession (rows s') (related s') (deleted s')
                        (trace s' ++ [SessionAdd o'])).

(** [collection.append(obj)] on the relation attribute of parent
    [parent]; an instance that is still transient is cascaded into the
    session first. *)
Definition collection_append (parent : pyid) (o : Obj) : M Obj :=
  λ s, let '(o', s') :=
         match o_row o with Some _ => (o, s) | None => attach o s end in
       let rel' :=
         match o_row o' with
         | Some k =>
             alter (λ r, mkRelated (rel_dynamic r) (rel_members r ++ [k]))
                   parent (related s')
         | None => related s'
         end in
       Ok o' (mkSession (rows s') rel' (deleted s')
                        (trace s' ++ [CollectionAppend parent o'])).

(** [session.delete(obj)]: the instance is marked, the row goes at the
    next flush. *)
Definition session_delete (o : Obj) : M unit :=
  λ s, Ok tt (mkSession (rows s) (related s)
                        (deleted s ++ match o_row o with Some k => [k] | None => [] end)
                        (trace s ++ [SessionDelete o])).

(** A relation without the members whose rows are gone. *)
Definition forget_members (gone : list pyid) (r : Related) : Related :=
  mkRelated (rel_dynamic r) (filter (λ k, k ∉ gone) (rel_members r)).

(** Rows marked for deletion leave the table, and with a row goes its
    membership in every relation. *)
Definition flush_deleted (s : Session) : Session :=
  mkSession (foldr delete (rows s) (deleted s))
            (forget_members (deleted s) <$> related s) [] (trace s).

(** [session.flush()] *)
Definition session_flush : M unit :=
  λ s, emit SessionFlush (flush_deleted s).

(** [session.commit()]: flushes what is pending, then commits. *)
Definition session_commit : M unit :=
  λ s, emit SessionCommit (flush_deleted s).

(** [len(session.deleted)] *)
Definition session_deleted_len : M Z :=
  λ s, Ok (Z.of_nat (length (deleted s))) s.

(** [model.query.get(id)] / [session.query(model).get(id)] on the
    resource model. *)
Definition query_get (id : pyid) : M (option Obj) :=
  λ s, Ok (mkObj (Some id) <$> rows s !! id) s.

(** [session.query(related_model).get(relation_id)] (with or without
    [load_only("id")]): the key of the parent row, with the value of its
    relation attribute. *)
Definition query_related_get (relation_id : pyid) : M (option (pyid * Related)) :=
  λ s, Ok (pair relation_id <$> related s !! relation_id) s.

(** The instances a relation value holds, in order: the rows of its
    member keys. *)
Definition relation_items (r : Related) : M (list Obj) :=
  λ s, Ok (omap (λ k, mkObj (Some k) <$> rows s !! k) (rel_members r)) s.

(** [relation_property.any(id=id)] as a criterion on a parent row: some
    member of the relation has key [id]. *)
Definition relation_any (s : Session) (r : Related) (id : pyid) : bool :=
  existsb (λ k, bool_decide (k = id) && bool_decide (is_Some (rows s !! k)))
          (rel_members r).

(** [Query.one_or_none()] *)
Definition one_or_none {A} (results : list A) : M (option A) :=
  match results with
  | [] => ret None
  | [x] => ret (Some x)
  | _ => raise MultipleResultsFound
  end.

(** Truth value of an instance or [None]: a declarative model instance
    defines neither [__bool__] nor [__len__], so only [None] is false. *)
Definition obj_truthy {A} (o : option A) : bool :=
  match o with Some _ => true | None => false end.

(** *** Serializer calls on instances *)

Definition serializer_dump (o : Obj) : Doc := dump (o_state o).

(** [load(serialized, existing_model)]: with an existing instance the
    document is loaded into that instance, which keeps its row; without
    one a new, transient instance is built. *)
Definition serializer_load (serialized : Doc) (existing_model : option Obj) : Obj :=
  match existing_model with
  | Some o => mkObj (o_row o) (load serialized (Some (o_state o)))
  | None => mkObj None (load serialized None)
  end.

(** *** BaseResource *)

Definition NOT_FOUND : value := VTuple [VStr NOT_FOUND_ERROR; VInt 404].

(** [dispatch_request]: the view's response goes through [unpack]
    ([jsonify] wraps the data without changing it). *)
Definition dispatch_request (view : M value) : M (value * value * value) :=
  view_response <- view ;;
  ret (unpack view_response).

Definition _save_model (model_obj : Obj) (method : string) : M Obj :=
  model_obj <- session_add model_obj ;;
  (* run pre commit hooks *)
  (if String.eqb method "POST" then emit (BeforePostCommit model_obj)
   else if String.eqb method "PUT" then emit (BeforePutCommit model_obj)
   else ret tt) ;;;
  session_commit ;;;
  (* run post commit hooks *)
  (if String.eqb method "POST" then emit (AfterPostCommit model_obj)
   else if String.eqb method "PUT" then emit (AfterPutCommit model_obj)
   else ret tt) ;;;
  ret model_obj.

Definition _save_serialized (serialized_data : Doc) (existing_model : option Obj)
  : M Doc :=
  let model_obj := serializer_load serialized_data existing_model in
  let method := if obj_truthy existing_model then "PUT" else "POST" in
  model_obj <- _save_model model_obj method ;;
  ret (serializer_dump model_obj).

(** *** ModelResource *)

Definition query_all : M (list Model) :=
  λ s, Ok (map_to_list (rows s)).*2 s.

Definition ModelResource_get (request : Request) (id : option pyid) : M value :=
  match id with
  | Some id =>
      data <- query_get id ;;
      match data with
      | None => ret NOT_FOUND
      | Some data => ret (VDict (serializer_dump data))
      end
  | None =>
      query <- query_all ;;
      ret (listing_value (query_from_request request query))
  end.

Definition ModelResource_put (request : Request) (id : pyid) : M value :=
  let request_data := load_request_data request in
  data <- query_get id ;;
  match data with
  | None => ret NOT_FOUND
  | Some data =>
      let serialized := serializer_dump data in
      let serialized := dict_update serialized request_data in
      result <- _save_serialized serialized (Some data) ;;
      ret (VDict result)
  end.

Definition ModelResource_delete (id : pyid) : M value :=
  data <- query_get id ;;
  match data with
  | None => ret NOT_FOUND
  | Some data =>
      session_delete data ;;;
      n <- session_deleted_len ;;
      let was_deleted := 0 <? n in
      session_flush ;;;
      session_commit ;;;
      ret (VTuple [VStr ""; VInt 204])
  end.

Definition ModelResource_post (request : Request) : M value :=
  let document := load_request_data request in
  saved <- _save_serialized document None ;;
  ret (VTuple [VDict saved; VInt 201]).

(** *** ToManyRelationResource *)

Definition double_quote : string := String (ascii_of_nat 34) EmptyString.

Definition RELATION_WARNING : string :=
  "Warnning: relationship does not support pagination nor filter."
  +:+ "Use flask-sqlalchemy relationship with lazy=" +:+ double_quote
  +:+ "dynamic" +:+ double_quote +:+ ".".

(** "Query resource model by ID but also add the relationship as a query
    constrain."  The first query selects the parent rows whose key is
    [relation_id] and whose relation holds a member of key [id]. *)
Definition _query_related_obj (relation_id id : pyid) : M (option Obj) :=
  related <-
    (λ s, one_or_none
            (map_to_list
               (filter (λ kr, kr.1 = relation_id ∧ relation_any s kr.2 id = true)
                       (related s))) s) ;;
  match related with
  | None => ret None
  | Some _ => query_get id
  end.

(** The branch of [get] taken when [id] is false: the listing of the
    relation of parent [relation_id]. *)
Definition ToManyRelationResource_get_collection
    (request : Request) (relation_id : pyid) : M value :=
  related_obj <- query_related_get relation_id ;;
  match related_obj with
  | None => ret NOT_FOUND
  | Some (_, relation_list_or_query) =>
      items <- relation_items relation_list_or_query ;;
      if negb (rel_dynamic relation_list_or_query) then
        emit (Warning RELATION_WARNING) ;;;
        let collection := VList ((λ item, VDict (serializer_dump item)) <$> items) in
        ret collection
      else
        let collection :=
          listing_value (query_from_request request (o_state <$> items)) in
        ret collection
  end.

Definition ToManyRelationResource_get
    (request : Request) (relation_id : pyid) (id : option pyid) : M value :=
  match id with
  | Some id' =>
      if id_truthy id' then
        requested_obj <- _query_related_obj relation_id id' ;;
        match requested_obj with
        | None => ret NOT_FOUND
        | Some requested_obj =>
            ret (VTuple [VDict (serializer_dump requested_obj); VInt 200])
        end
      else ToManyRelationResource_get_collection request relation_id
  | None => ToManyRelationResource_get_collection request relation_id
  end.

(** [session.query(resource_model).get(resource_id)] for a key taken from
    the request document. *)
Definition query_get_json (resource_id : json) : M (option Obj) :=
  match key_of_json resource_id with
  | Some k => query_get k
  | None => ret None
  end.

Definition append_existent (collection : pyid) (resource_id : json) : M value :=
  resource_obj <- query_get_json resource_id ;;
  match resource_obj with
  | None => ret NOT_FOUND
  | Some resource_obj =>
      resource_obj <- collection_append collection resource_obj ;;
      session_commit ;;;
      ret (VTuple [VDict (serializer_dump resource_obj); VInt 200])
  end.

(** [data_dict.get('id', None)] *)
Definition dict_get_id (data_dict : Doc) : json :=
  match data_dict !! "id"%string with
  | Some j => j
  | None => JNull
  end.

Definition is_not_None (j : json) : bool :=
  match j with JNull => false | _ => true end.

Definition ToManyRelationResource_post
    (request : Request) (relation_id : pyid) : M value :=
  related_obj <- query_related_get relation_id ;;
  match related_obj with
  | None => ret NOT_FOUND
  | Some (collection, _) =>
      let data_dict := load_request_data request in
      let resource_id := dict_get_id data_dict in
      if is_not_None resource_id then
        append_existent collection resource_id
      else
        let new_obj := serializer_load data_dict None in
        new_obj <- session_add new_obj ;;
        new_obj <- collection_append collection new_obj ;;
        new_obj <- _save_model new_obj "POST" ;;
        let saved := serializer_dump new_obj in
        ret (VTuple [VDict saved; VInt 201])
  end.

Definition ToManyRelationResource_put
    (request : Request) (relation_id id : pyid) : M value :=
  let request_data := load_request_data request in
  requested_obj <- _query_related_obj relation_id id ;;
  match requested_obj with
  | None => ret NOT_FOUND
  | Some requested_obj =>
      let serialized := serializer_dump requested_obj in
      let serialized := dict_update serialized request_data in
      saved <- _save_serialized serialized (Some requested_obj) ;;
      ret (VDict saved)
  end.

Definition ToManyRelationResource_delete (relation_id id : pyid) : M value :=
  requested_obj <- _query_related_obj relation_id id ;;
  match requested_obj with
  | None => ret NOT_FOUND
  | Some requested_obj =>
      session_delete requested_obj ;;;
      n <- session_deleted_len ;;
      let was_deleted := 0 <? n in
      session_flush ;;;
      session_commit ;;;
      ret (VTuple [VStr ""; VInt 204])
  end.

(** The child of key [id] is in the relation collection of the parent of
    key [relation_id] (which then exists). *)
Definition is_member (s : Session) (relation_id id : pyid) : bool :=
  match related s !! relation_id with
  | Some r => bool_decide (id ∈ rel_members r)
  | None => false
  end.

(** Referential integrity of a store: every member of every relation
    has a row. *)
Definition referential (s : Session) : bool :=
  bool_decide
    (map_Forall (λ _ r, Forall (λ k, is_Some (rows s !! k)) (rel_members r))
                (related s)).

(** The rows of the members of a relation value, in order. *)
Definition member_rows (s : Session) (r : Related) : list Model :=
  omap (λ k, rows s !! k) (rel_members r).

(** *** CollectionPropertyResource *)

Definition property_warning (property_name : string) : string :=
  "Warnning: property " +:+ property_name
  +:+ " does not support pagination nor filter."
  +:+ " Use flask-sqlalchemy and make your property return a query object".

Definition CollectionPropertyResource_get
    (property_name : string) (request : Request)
    (relation_id : pyid) (id : option pyid) : M value :=
  related_obj <- query_related_get relation_id ;;
  match related_obj with
  | None => ret NOT_FOUND
  | Some (_, relation_list_or_query) =>
      items <- relation_items relation_list_or_query ;;
      if negb (rel_dynamic relation_list_or_query) then
        emit (Warning (property_warning property_name)) ;;;
        let collection := VList ((λ item, VDict (serializer_dump item)) <$> items) in
        ret collection
      else
        let collection :=
          listing_value (query_from_request request (o_state <$> items)) in
        ret collection
  end.

Definition CollectionPropertyResource_post (relation_id : pyid) : M value :=
  ret (VTuple [VStr "POST not allowed for property resources"; VInt 405]).

End Resources.

(* ===================================================================== *)
(** ** Constructing a resource *)
(* ===================================================================== *)

(** The object passed as [serializer], as far as [__init__] can tell:
    an instance of [ModelSerializer]; an instance of some other class that
    takes new attributes; or an object that takes none ([None], a number, a
    string), on which an attribute assignment raises [AttributeError]. *)
Inductive SerializerArg : Type :=
  | ModelSerializerInstance (strict : bool)
  | OtherInstance (repr : string) (strict : option bool)
  | NoAttributes (repr : string).

Inductive InitError : Type :=
  | AttributeError
  | AssertionError (msg : string).

(** [self._serializer.strict = True] *)
Definition set_strict (serializer : SerializerArg) : InitError + SerializerArg :=
  match serializer with
  | ModelSerializerInstance _ => inr (ModelSerializerInstance true)
  | OtherInstance repr _ => inr (OtherInstance repr (Some true))
  | NoAttributes _ => inl AttributeError
  end.

(** [isinstance(serializer, ModelSerializer)] *)
Definition isinstance_ModelSerializer (serializer : SerializerArg) : bool :=
  match serializer with
  | ModelSerializerInstance _ => true
  | _ => false
  end.

Definition serializer_repr (serializer : SerializerArg) : string :=
  match serializer with
  | ModelSerializerInstance _ => "<ModelSerializer>"
  | OtherInstance repr _ => repr
  | NoAttributes repr => repr
  end.

(** [relation_property]: the mapped class of the relation's target, the
    class that declares the relation, and the attribute name. *)
Record RelationProperty : Type := mkRelationProperty {
  prop_mapper_class_ : string;
  class_ : string;
  key : string;
}.

(** The attributes [__init__] sets; [View] is the type of
    [dispatch_request]. *)
Record Resource (View : Type) : Type := mkResource {
  _resource_model : string;
  _serializer : SerializerArg;
  _dispatch_request : View;
  _relation_property : option RelationProperty;
  _related_model : option string;
  _property_name : option string;
}.
Arguments mkResource {View}.

Section Init.

Context {View : Type}.

(** [BaseResource.__init__].  [request_decorators] defaults to [None]; an
    empty list is false as well. *)
Definition BaseResource_init
    (dispatch_request : View) (declarative_model : string)
    (serializer : SerializerArg)
    (request_decorators : option (list (View → View)))
  : InitError + Resource View :=
  match set_strict serializer with
  | inl e => inl e
  | inr serializer =>
      if isinstance_ModelSerializer serializer then
        let dispatch_request :=
          match request_decorators with
          | Some decorators =>
              fold_left (λ dispatch decorator, decorator dispatch)
                        decorators dispatch_request
          | None => dispatch_request
          end in
        inr (mkResource declarative_model serializer dispatch_request
                        None None None)
      else
        inl (AssertionError
               ("Invalid serializer instance: " +:+ serializer_repr serializer))
  end.

(** [ToManyRelationResource.__init__] *)
Definition ToManyRelationResource_init
    (dispatch_request : View) (relation_property : RelationProperty)
    (serializer : SerializerArg)
    (request_decorators : option (list (View → View)))
  : InitError + Resource View :=
  let resource_model := prop_mapper_class_ relation_property in
  match BaseResource_init dispatch_request resource_model serializer
                          request_decorators with
  | inl e => inl e
  | inr self =>
      inr (mkResource (_resource_model _ self) (_serializer _ self)
                      (_dispatch_request _ self)
                      (Some relation_property)
                      (Some (class_ relation_property))
                      (_property_name _ self))
  end.

(** [CollectionPropertyResource.__init__], which calls
    [BaseResource.__init__] directly. *)
Definition CollectionPropertyResource_init
    (dispatch_request : View) (declarative_model related_model property_name : string)
    (serializer : SerializerArg)
    (request_decorators : option (list (View → View)))
  : InitError + Resource View :=
  match BaseResource_init dispatch_request declarative_model serializer
                          request_decorators with
  | inl e => inl e
  | inr self =>
      inr (mkResource (_resource_model _ self) (_serializer _ self)
                      (_dispatch_request _ self)
                      (_relation_property _ self)
                      (Some related_model)
                      (Some property_name))
  end.

End Init.

(* ===================================================================== *)
(** ** The DateTime serializer *)
(* ===================================================================== *)

Module DateTimeSerializer.

(** *** [datetime] values *)

(** A [datetime] as [isoformat] reads it and as [load] builds it: its
    fields, and for an aware value its [utcoffset()], in seconds ([None]
    for a naive value; [timezone.utc] is offset 0).  A value that [load]
    returns carries a fixed [timezone] of that offset.  What else a value
    passed to [dump] may carry (a [tzinfo] of a zone, [fold]) is in
    [zoned] below. *)
Record datetime : Type := mkDatetime {
  year : Z;
  month : Z;
  day : Z;
  hour : Z;
  minute : Z;
  second : Z;
  microsecond : Z;
  tzinfo : option Z;
}.

Definition is_leap (y : Z) : bool :=
  (y mod 4 =? 0) && (negb (y mod 100 =? 0) || (y mod 400 =? 0)).

Definition days_in_month (y m : Z) : Z :=
  if m =? 2 then (if is_leap y then 29 else 28)
  else if (m =? 4) || (m =? 6) || (m =? 9) || (m =? 11) then 30
  else 31.

(** [timezone(offset)] accepts offsets strictly between -24 and 24 hours. *)
Definition offset_ok (off : Z) : bool := (-86400 <? off) && (off <? 86400).

(** The range checks of the [datetime] constructor. *)
Definition fields_ok (d : datetime) : bool :=
  (1 <=? year d) && (year d <=? 9999)
  && (1 <=? month d) && (month d <=? 12)
  && (1 <=? day d) && (day d <=? days_in_month (year d) (month d))
  && (0 <=? hour d) && (hour d <=? 23)
  && (0 <=? minute d) && (minute d <=? 59)
  && (0 <=? second d) && (second d <=? 59)
  && (0 <=? microsecond d) && (microsecond d <=? 999999).

(** The values that exist: every field in range and, for an aware value,
    an offset a [timezone] can hold. *)
Definition valid (d : datetime) : bool :=
  fields_ok d && match tzinfo d with Some off => offset_ok off | None => true end.

(** Days before January 1st of year [y], and before the first of month
    [m] in year [y]: the proleptic Gregorian ordinal of [date.toordinal]. *)
Definition days_before_year (y : Z) : Z :=
  let y' := y - 1 in y' * 365 + y' / 4 - y' / 100 + y' / 400.

Fixpoint days_before_month_aux (y : Z) (m : nat) : Z :=
  match m with
  | O => 0
  | S m' => days_before_month_aux y m' + days_in_month y (Z.of_nat m)
  end.

Definition days_before_month (y m : Z) : Z :=
  days_before_month_aux y (Z.to_nat (m - 1)).

Definition toordinal (d : datetime) : Z :=
  days_before_year (year d) + days_before_month (year d) (month d) + day d.

(** Microseconds of the fields since the start of year 1. *)
Definition field_microseconds (d : datetime) : Z :=
  ((((toordinal d * 24 + hour d) * 60 + minute d) * 60 + second d) * 1000000)
  + microsecond d.

(** [a == b]: naive values compare by their fields, aware values by the
    instant they denote, and a naive value never equals an aware one. *)
Definition datetime_eq (a b : datetime) : bool :=
  match tzinfo a, tzinfo b with
  | None, None => field_microseconds a =? field_microseconds b
  | Some oa, Some ob =>
      field_microseconds a - oa * 1000000 =? field_microseconds b - ob * 1000000
  | _, _ => false
  end.

(** *** Decimal digits *)

Definition digit_char (k : Z) : ascii :=
  match k with
  | 0 => "0" | 1 => "1" | 2 => "2" | 3 => "3" | 4 => "4"
  | 5 => "5" | 6 => "6" | 7 => "7" | 8 => "8" | _ => "9"
  end%char.

(** [\d] of the pattern and the digits of [int()].  A character here is
    a code point below U+0100, and among these the decimal digits are 0 to
    9.  The pattern and [int()] also take the decimal digits of other
    scripts, which lie beyond U+00FF: a text that holds one is not
    represented. *)
Definition is_digit (c : ascii) : bool :=
  let n := nat_of_ascii c in (48 <=? n)%nat && (n <=? 57)%nat.

Definition digit_value (c : ascii) : Z := Z.of_nat (nat_of_ascii c) - 48.

(** [%0wd] for a number of at most [w] digits, most significant digit
    first: the fields of a [datetime] are in range, so each is printed
    with exactly its width. *)
Fixpoint zero_padded (w : nat) (n : Z) : string :=
  match w with
  | O => ""
  | S w' => String (digit_char ((n / 10 ^ Z.of_nat w') mod 10)) (zero_padded w' n)
  end.

(** *** [isoformat] *)

(** The offset as [isoformat] prints it: sign, hours and minutes, and the
    seconds when there are any. *)
Definition format_offset (tz : option Z) : string :=
  match tz with
  | None => ""
  | Some off =>
      let sign := if off <? 0 then "-" else "+" in
      let off := Z.abs off in
      let hh := off / 3600 in
      let mm := (off mod 3600) / 60 in
      let ss := off mod 60 in
      sign +:+ zero_padded 2 hh +:+ ":" +:+ zero_padded 2 mm
      +:+ (if ss =? 0 then "" else ":" +:+ zero_padded 2 ss)
  end.

Definition isoformat (d : datetime) : string :=
  zero_padded 4 (year d) +:+ "-" +:+ zero_padded 2 (month d) +:+ "-"
  +:+ zero_padded 2 (day d) +:+ "T"
  +:+ zero_padded 2 (hour d) +:+ ":" +:+ zero_padded 2 (minute d) +:+ ":"
  +:+ zero_padded 2 (second d)
  +:+ (if microsecond d =? 0 then "" else "." +:+ zero_padded 6 (microsecond d))
  +:+ format_offset (tzinfo d).

(** *** [DATETIME_RE]

    The pattern is matched from the start of the string ([re.match]) and
    every item after the minutes is optional, so the match never fails
    for what follows the minutes, and no earlier choice is revisited:
    each piece below takes what the greedy item takes.  The year takes up
    to four digits; fewer than the whole run of digits would leave a digit
    where the pattern wants a dash. *)

(** The named groups of a match. *)
Record groups : Type := mkGroups {
  g_Y : string;
  g_m : string;
  g_d : string;
  g_H : string;
  g_M : string;
  g_S : option string;
  g_f : option string;
  g_tz : option string;
}.

(** At most [max] leading digits. *)
Fixpoint take_digits (max : nat) (s : string) : string * string :=
  match max, s with
  | S max', String c rest =>
      if is_digit c then
        let '(ds, rest') := take_digits max' rest in (String c ds, rest')
      else (EmptyString, s)
  | _, _ => (EmptyString, s)
  end.

(** [\d{n}] *)
Definition digits_exact (n : nat) (s : string) : option (string * string) :=
  let '(ds, rest) := take_digits n s in
  if (String.length ds =? n)%nat then Some (ds, rest) else None.

(** [\d{2,4}] *)
Definition digits_2_4 (s : string) : option (string * string) :=
  let '(ds, rest) := take_digits 4 s in
  if (2 <=? String.length ds)%nat then Some (ds, rest) else None.

(** [\d+] *)
Definition digits_many (s : string) : option (string * string) :=
  let '(ds, rest) := take_digits (String.length s) s in
  if (1 <=? String.length ds)%nat then Some (ds, rest) else None.

(** A single character. *)
Definition literal (c : ascii) (s : string) : option string :=
  match s with
  | String c' rest => if Ascii.eqb c' c then Some rest else None
  | EmptyString => None
  end.

(** A character class. *)
Definition one_of (cs : list ascii) (s : string) : option (ascii * string) :=
  match s with
  | String c rest => if existsb (Ascii.eqb c) cs then Some (c, rest) else None
  | EmptyString => None
  end.

(** [(:(?P<S>\d{2}))?] *)
Definition match_seconds (s : string) : option string * string :=
  match literal ":" s ≫= digits_exact 2 with
  | Some (ss, rest) => (Some ss, rest)
  | None => (None, s)
  end.

(** [(\.(?P<f>\d+))?] *)
Definition match_fraction (s : string) : option string * string :=
  match literal "." s ≫= digits_many with
  | Some (f, rest) => (Some f, rest)
  | None => (None, s)
  end.

(** [[\+-]\d{2}:?\d{2}] *)
Definition match_offset (s : string) : option string :=
  '(sign, s) ← one_of ["+"; "-"]%char s;
  '(hh, s) ← digits_exact 2 s;
  match literal ":" s ≫= digits_exact 2 with
  | Some (mm, _) => Some (String sign hh +:+ ":" +:+ mm)
  | None =>
      '(mm, _) ← digits_exact 2 s;
      Some (String sign hh +:+ mm)
  end.

(** [(?P<tz>([\+-]\d{2}:?\d{2})|[Zz])?] *)
Definition match_tz (s : string) : option string :=
  match match_offset s with
  | Some tz => Some tz
  | None =>
      match one_of ["Z"; "z"]%char s with
      | Some (c, _) => Some (String c EmptyString)
      | None => None
      end
  end.

(** [DATETIME_RE.match(serialized)] and its [groupdict()]. *)
Definition DATETIME_RE_match (serialized : string) : option groups :=
  '(Y, s) ← digits_2_4 serialized;
  s ← literal "-" s;
  '(m, s) ← digits_exact 2 s;
  s ← literal "-" s;
  '(d, s) ← digits_exact 2 s;
  '(_, s) ← one_of ["T"; " "]%char s;
  '(H, s) ← digits_exact 2 s;
  s ← literal ":" s;
  '(M, s) ← digits_exact 2 s;
  let '(S', s) := match_seconds s in
  let '(f, s) := match_fraction s in
  Some (mkGroups Y m d H M S' f (match_tz s)).

(** *** [load] and [dump] *)

Inductive outcome (A : Type) : Type :=
  | Return (a : A)
  | ValueError (msg : string).
Arguments Return {A} a.
Arguments ValueError {A} msg.

#[export] Instance outcome_ret : MRet outcome := λ A a, Return a.
#[export] Instance outcome_bind : MBind outcome := λ A B k r,
  match r with
  | Return a => k a
  | ValueError msg => ValueError msg
  end.

Fixpoint int_digits (acc : Z) (s : string) : outcome Z :=
  match s with
  | EmptyString => Return acc
  | String c rest =>
      if is_digit c then int_digits (acc * 10 + digit_value c) rest
      else ValueError "invalid literal for int()"
  end.

(** [int(s)] for a string: an optional sign and at least one digit. *)
Definition int (s : string) : outcome Z :=
  let unsigned (t : string) : outcome Z :=
    match t with
    | EmptyString => ValueError "invalid literal for int()"
    | _ => int_digits 0 t
    end in
  match s with
  | String c rest =>
      if Ascii.eqb c "+" then unsigned rest
      else if Ascii.eqb c "-" then n ← unsigned rest; Return (- n)
      else unsigned s
  | EmptyString => unsigned s
  end.

(** [int(group or 0)] *)
Definition int_or_0 (group : option string) : outcome Z :=
  match group with
  | Some (String c rest) => int (String c rest)
  | _ => Return 0
  end.

(** [str.upper()] on one character. *)
Definition upper_char (c : ascii) : ascii :=
  let n := nat_of_ascii c in
  if (97 <=? n)%nat && (n <=? 122)%nat then ascii_of_nat (n - 32) else c.

Fixpoint upper (s : string) : string :=
  match s with
  | EmptyString => EmptyString
  | String c rest => String (upper_char c) (upper rest)
  end.

(** [timezone(timedelta(hours=hours, minutes=minutes))] *)
Definition timezone (hours minutes : Z) : outcome (option Z) :=
  let off := hours * 3600 + minutes * 60 in
  if offset_ok off then Return (Some off)
  else ValueError "offset must be a timedelta strictly between -24 and 24 hours".

Definition _parse_tzinfo (offset_str : option string) : outcome (option Z) :=
  match offset_str with
  | Some (String c rest as offset_str) =>
      if String.eqb (upper offset_str) "Z" then
        Return (Some 0)
      else
        hours ← int (substring 0 3 offset_str);
        minutes ← int (substring (String.length offset_str - 2) 2 offset_str);
        (* Invert minutes sign if hours == 0 *)
        let minutes :=
          if Ascii.eqb c "-" && (hours =? 0) then - minutes else minutes in
        timezone hours minutes
  | _ => Return None
  end.

(** The [datetime] constructor. *)
Definition datetime_new (Y m d H M S f : Z) (tz : option Z) : outcome datetime :=
  let dt := mkDatetime Y m d H M S f tz in
  if fields_ok dt then Return dt else ValueError "field out of range".

Definition dump (value : datetime) : string := isoformat value +:+ "Z".

(** [value.replace(tzinfo=tz)] *)
Definition replace_tzinfo (value : datetime) (tz : option Z) : datetime :=
  mkDatetime (year value) (month value) (day value) (hour value)
             (minute value) (second value) (microsecond value) tz.

Definition load (serialized : string) : outcome datetime :=
  match DATETIME_RE_match serialized with
  | None => ValueError ("Could not parse DateTime: '" +:+ serialized +:+ "'")
  | Some parts =>
      Y ← int (g_Y parts);
      m ← int (g_m parts);
      d ← int (g_d parts);
      H ← int (g_H parts);
      M ← int (g_M parts);
      S' ← int_or_0 (g_S parts);
      f ← int_or_0 (g_f parts);
      tz ← _parse_tzinfo (g_tz parts);
      datetime_new Y m d H M S' f tz
  end.

(** *** Values of any time zone *)

(** A [datetime] as a caller may pass it to [dump].  [isoformat] prints
    the fields and [utcoffset()], which is what [shown] keeps.  Equality
    looks at two things more: [fold], and whether [utcoffset()] changes
    when [fold] is flipped, which happens for a value of a zone (a
    [tzinfo] that is no fixed [timezone]) at a wall time that occurs
    twice.  A fixed [timezone], and so every value that [load] returns,
    has [offset_depends_on_fold] false. *)
Record zoned : Type := mkZoned {
  shown : datetime;
  fold_bit : bool;
  offset_depends_on_fold : bool;
}.

(** The values that exist: only an aware value has an offset that can
    depend on [fold]. *)
Definition valid_zoned (v : zoned) : bool :=
  valid (shown v)
  && (negb (offset_depends_on_fold v)
      || match tzinfo (shown v) with Some _ => true | None => false end).

(** [dump] on any value: [value.isoformat() + 'Z'] reads neither the class
    of the [tzinfo] nor [fold]. *)
Definition dump_zoned (v : zoned) : string := dump (shown v).

(** [loaded == v] for a value [loaded] that [load] returned.  Two naive
    values compare by their fields.  Otherwise the [tzinfo] of [loaded], a
    [timezone] built by [load], is another object than that of a value
    whose offset depends on [fold]: such a value is unequal to everything
    of another zone; in the remaining cases the instants are compared, and
    [fold] is not looked at. *)
Definition loaded_eq (loaded : datetime) (v : zoned) : bool :=
  match tzinfo loaded, tzinfo (shown v) with
  | None, None => datetime_eq loaded (shown v)
  | _, _ =>
      if offset_depends_on_fold v then false
      else datetime_eq loaded (shown v)
  end.

(** *** What a dump looks like to [load] *)

(** The text after the fraction: the offset and the closing Z. *)
Definition tail_text (tz : option Z) : string := format_offset tz +:+ "Z".

(** The text of the tz group for that tail. *)
Definition tz_text (tz : option Z) : string :=
  match tz with
  | None => "Z"
  | Some off =>
      (if off <? 0 then "-" else "+")
      +:+ zero_padded 2 (Z.abs off / 3600) +:+ ":"
      +:+ zero_padded 2 (Z.abs off mod 3600 / 60)
  end.

(** The offset read back from the dump of an aware value whose offset is
    a whole number of minutes. *)
Definition parsed_offset (off : Z) : Z :=
  let hh := Z.abs off / 3600 in
  let mm := Z.abs off mod 3600 / 60 in
  if off <? 0 then (- hh) * 3600 + (if hh =? 0 then - mm else mm) * 60
  else hh * 3600 + mm * 60.

End DateTimeSerializer.

(* ===================================================================== *)
(** ** A concrete store

    Models are documents: [dump] is the document itself, [load] lays the
    incoming document over the existing one, the generated key lands in
    the 'id' member, and [query_from_request] lists every instance. *)
(* ===================================================================== *)

Module Example.

Definition json_of_key (k : pyid) : json :=
  match k with IdInt n => JNum n | IdStr s => JStr s end.

#[export] Instance doc_serializer : ModelSerializer Doc := {|
  dump m := m;
  load serialized existing :=
    match existing with
    | Some m => dict_update m serialized
    | None => serialized
    end;
|}.

#[export] Instance doc_model : DeclarativeModel Doc := {|
  assign_pk k m := <["id"%string := json_of_key k]> m;
|}.

#[export] Instance doc_queries : QueryBuilder Doc := {|
  query_from_request _ ms := Items ms;
|}.

(** An integer or string key column that takes numbers and strings as
    they are. *)
#[export] Instance doc_keys : PrimaryKeyColumn Doc := {|
  identify j :=
    match j with
    | JNum n => Some (IdInt n)
    | JStr s => Some (IdStr s)
    | _ => None
    end;
|}.

Definition ann : Doc :=
  {["id"%string := JNum 1; "name"%string := JStr "ann"; "age"%string := JNum 30]}.

Definition bob : Doc :=
  {["id"%string := JNum 2; "name"%string := JStr "bob"; "age"%string := JNum 41]}.

(** Parent 1 holds child 1; child 2 exists but belongs to no parent. *)
Definition store : @Session Doc :=
  mkSession {[IdInt 1 := ann; IdInt 2 := bob]}
            {[IdInt 1 := mkRelated false [IdInt 1]]}
            [] [].

Definition no_body : Request :=
  {| req_data := None; req_form := ∅; req_args := ∅ |}.

Definition body (d : Doc) : Request :=
  {| req_data := Some d; req_form := ∅; req_args := ∅ |}.

End Example.

(* ===================================================================== *)
(** ** Methods on a constructed resource

    [put], [delete] and [_query_related_obj] of
    [ToManyRelationResource] read [self._related_model] and then
    [self._relation_property] while they build the first query, before
    anything is sent to the session.  [CollectionPropertyResource]
    inherits the three methods, and its [__init__] goes straight to
    [BaseResource.__init__]: it sets [_related_model] and
    [_property_name], never [_relation_property]. *)
(* ===================================================================== *)

(** The outcome of a method call on a resource object: the call runs on
    the session, or an attribute of [self] is missing. *)
Inductive MethodResult (A : Type) : Type :=
  | Ran (r : A)
  | NoAttribute (name : string).
Arguments Ran {A} r.
Arguments NoAttribute {A} name.

Section Methods.

Context {Model : Type} {View : Type}.
Context `{!ModelSerializer Model, !DeclarativeModel Model, !QueryBuilder Model}.

(** The attribute reads of the query in [_query_related_obj], in the
    order of evaluation. *)
Definition relation_attributes (self : Resource View) : MethodResult unit :=
  match _related_model _ self with
  | None => NoAttribute "_related_model"
  | Some _ =>
      match _relation_property _ self with
      | None => NoAttribute "_relation_property"
      | Some _ => Ran tt
      end
  end.

(** [self.put(relation_id, id)] as inherited from
    [ToManyRelationResource]. *)
Definition method_put (self : Resource View) (request : Request)
    (relation_id id : pyid) (s : @Session Model)
  : MethodResult (@Result Model value) :=
  match relation_attributes self with
  | NoAttribute name => NoAttribute name
  | Ran _ => Ran (ToManyRelationResource_put request relation_id id s)
  end.

(** [self.delete(relation_id, id)] as inherited from
    [ToManyRelationResource]. *)
Definition method_delete (self : Resource View)
    (relation_id id : pyid) (s : @Session Model)
  : MethodResult (@Result Model value) :=
  match relation_attributes self with
  | NoAttribute name => NoAttribute name
  | Ran _ => Ran (ToManyRelationResource_delete relation_id id s)
  end.

End Methods.

(* ===================================================================== *)
(** ** A serializer that replaces

    [load] takes the document as the whole new state, so that a dump of
    what was loaded is the document again. *)
(* ===================================================================== *)

Module Replacing.

Definition replacing_serializer : ModelSerializer Doc := {|
  dump m := m;
  load serialized _ := serialized;
|}.

End Replacing.

(* ===================================================================== *)
(** ** Properties of the resources *)
(* ===================================================================== *)

(** *** The response unpacker *)

(** C6. [unpack] maps a value that is no tuple to (value, 200, {}), a pair
    (data, code) to (data, code, {}), and passes a triple
    (data, code, headers) through unchanged. *)
Theorem unpack_shapes :
  (∀ v, is_tuple v = false → unpack v = (v, VInt 200, VDict ∅))
  ∧ (∀ data code, unpack (VTuple [data; code]) = (data, code, VDict ∅))
  ∧ (∀ data code headers,
       unpack (VTuple [data; code; headers]) = (data, code, headers)).
Proof.
  split; [|split]; try reflexivity.
  intros [] Hv; try reflexivity. discriminate Hv.
Qed.

(** Tuples of any other length fall through both assignments. *)
Lemma unpack_other_tuple items :
  length items ≠ 2%nat → length items ≠ 3%nat →
  unpack (VTuple items) = (VTuple items, VInt 200, VDict ∅).
Proof.
  destruct items as [|a [|b [|c [|d l]]]]; simpl; intros; try reflexivity; congruence.
Qed.

Section Facts.

Context {Model : Type}.
Context `{!ModelSerializer Model, !DeclarativeModel Model, !QueryBuilder Model}.
Context `{!PrimaryKeyColumn Model}.

#[local] Abbreviation Session := (@Session Model).
#[local] Abbreviation Obj := (@Obj Model).

Implicit Types (s : Session) (o : Obj) (id k : pyid) (m : Model).

(** *** The store *)

Lemma max_int_key_bound (t : gmap pyid Model) n :
  is_Some (t !! IdInt n) → n ≤ max_int_key t.
Proof.
  unfold max_int_key. revert n.
  apply (map_fold_weak_ind (λ acc t, ∀ n, is_Some (t !! IdInt n) → n ≤ acc)).
  - intros n [x Hx]. by rewrite lookup_empty in Hx.
  - intros i x t' r Hi IH n Hn.
    destruct (decide (i = IdInt n)) as [->|Hne].
    + lia.
    + rewrite lookup_insert_ne in Hn by done.
      specialize (IH n Hn). destruct i; lia.
Qed.

Lemma fresh_pk_fresh (t : gmap pyid Model) : t !! fresh_pk t = None.
Proof.
  destruct (t !! fresh_pk t) eqn:E; [|done].
  assert (1 + max_int_key t ≤ max_int_key t); [|lia].
  apply max_int_key_bound. unfold fresh_pk in E. by rewrite E.
Qed.

Lemma lookup_foldr_delete (t : gmap pyid Model) (ks : list pyid) k :
  foldr delete t ks !! k = if bool_decide (k ∈ ks) then None else t !! k.
Proof.
  induction ks as [|k' ks IH].
  - case_bool_decide as H; [by apply elem_of_nil in H | reflexivity].
  - cbn [foldr]. destruct (decide (k' = k)) as [->|Hne].
    + rewrite lookup_delete_eq, bool_decide_eq_true_2; [done | by left].
    + rewrite lookup_delete_ne, IH by done.
      destruct (decide (k ∈ ks)) as [Hin|Hin].
      * rewrite !bool_decide_eq_true_2; [done | by right | done].
      * rewrite !bool_decide_eq_false_2; [done | | done].
        intros [?|?]%elem_of_cons; congruence.
Qed.


(** *** The membership-checked lookup *)

Lemma relation_any_spec s (r : Related) id :
  relation_any s r id = true ↔ id ∈ rel_members r ∧ is_Some (rows s !! id).
Proof.
  unfold relation_any. rewrite existsb_exists. split.
  - intros (k & Hin & Hk). apply andb_prop in Hk as [Hk1 Hk2].
    apply bool_decide_eq_true in Hk1 as ->. apply bool_decide_eq_true in Hk2.
    split; [by apply list_elem_of_In | done].
  - intros [Hin Hrow]. exists id. split; [by apply list_elem_of_In|].
    by rewrite !bool_decide_eq_true_2.
Qed.

(** The parent rows selected by the filter of [_query_related_obj]: at
    most the row of key [relation_id]. *)
Lemma related_filter s relation_id id :
  filter (λ kr : pyid * Related,
            kr.1 = relation_id ∧ relation_any s kr.2 id = true) (related s)
  = match related s !! relation_id with
    | Some r => if relation_any s r id then {[relation_id := r]} else ∅
    | None => ∅
    end.
Proof.
  apply map_eq. intros i. apply option_eq. intros x.
  rewrite map_lookup_filter_Some. simpl.
  destruct (related s !! relation_id) as [r|] eqn:Hr.
  - destruct (relation_any s r id) eqn:Hany.
    + rewrite lookup_singleton_Some. split.
      * intros (Hi & -> & _). split; [done | congruence].
      * intros [<- <-]. done.
    + rewrite lookup_empty. split; [|done].
      intros (Hi & -> & Hx). congruence.
  - rewrite lookup_empty. split; [|done].
    intros (Hi & -> & _). congruence.
Qed.

Lemma query_related_obj_spec s relation_id id :
  _query_related_obj relation_id id s
  = Ok (if is_member s relation_id id
        then mkObj (Some id) <$> rows s !! id else None) s.
Proof.
  unfold _query_related_obj, bind, is_member. rewrite related_filter.
  destruct (related s !! relation_id) as [r|] eqn:Hr.
  - destruct (relation_any s r id) eqn:Hany.
    + rewrite map_to_list_singleton. simpl.
      apply relation_any_spec in Hany as [Hin _].
      by rewrite bool_decide_eq_true_2.
    + rewrite map_to_list_empty. simpl.
      case_bool_decide as Hin; [|done].
      destruct (rows s !! id) as [m|] eqn:Hm; [|done].
      assert (relation_any s r id = true); [|congruence].
      apply relation_any_spec. split; [done|]. by rewrite Hm.
  - by rewrite map_to_list_empty.
Qed.

(** *** Flushing *)

Lemma forget_members_nil (r : Related) : forget_members [] r = r.
Proof.
  destruct r as [dyn members]. unfold forget_members. cbn [rel_dynamic rel_members].
  f_equal. induction members as [|k ks IH]; [done|].
  rewrite filter_cons_True by apply not_elem_of_nil. by f_equal.
Qed.

Lemma forget_nothing (t : gmap pyid Related) : forget_members [] <$> t = t.
Proof.
  apply map_eq. intros i. rewrite lookup_fmap.
  destruct (t !! i) as [r|]; [|done]. cbn. by rewrite forget_members_nil.
Qed.

(** With nothing marked for deletion a flush changes no table. *)
Lemma flush_deleted_nil s :
  deleted s = [] →
  flush_deleted s = mkSession (rows s) (related s) [] (trace s).
Proof. intros Hdel. unfold flush_deleted. by rewrite Hdel, forget_nothing. Qed.

(** *** Saving *)

Lemma attach_persistent o s k :
  o_row o = Some k →
  attach o s
  = (o, mkSession (<[k := o_state o]> (rows s)) (related s) (deleted s) (trace s)).
Proof. unfold attach. by intros ->. Qed.

(** The hooks [_save_model] fires are those of its method tag. *)
Lemma save_model_trace o (method : string) s :
  ∃ saved s',
    _save_model o method s = Ok saved s'
    ∧ saved = (attach o s).1
    ∧ rows s' = foldr delete (rows (attach o s).2) (deleted s)
    ∧ related s' = forget_members (deleted s) <$> related s
    ∧ deleted s' = []
    ∧ trace s' = trace s ++ SessionAdd saved ::
        (if String.eqb method "POST"
         then [BeforePostCommit saved; SessionCommit; AfterPostCommit saved]
         else if String.eqb method "PUT"
         then [BeforePutCommit saved; SessionCommit; AfterPutCommit saved]
         else [SessionCommit]).
Proof.
  unfold _save_model, bind, session_add.
  destruct (attach o s) as [o' s1] eqn:Hat.
  assert (related s1 = related s ∧ deleted s1 = deleted s ∧ trace s1 = trace s)
    as (Hrel & Hdel & Htr).
  { unfold attach in Hat. destruct (o_row o); by inversion Hat. }
  exists o'. simpl.
  destruct (String.eqb method "POST"); [|destruct (String.eqb method "PUT")];
    simpl; eexists; (split; [reflexivity|]); simpl;
    rewrite Hrel, Hdel, Htr, <- ?app_assoc; done.
Qed.

(** C8. [_save_serialized] loads the document into the existing instance
    when one is given and into a new instance otherwise; the method tag it
    hands to [_save_model] is 'PUT' exactly when an existing instance is
    given, so that the PUT hooks fire around the commit in that case and
    the POST hooks otherwise; it returns the dump of the saved instance. *)
Theorem save_serialized_spec (serialized_data : Doc) (existing_model : option Obj) s :
  let model_obj := serializer_load serialized_data existing_model in
  let method := match existing_model with Some _ => "PUT" | None => "POST" end in
  o_state model_obj = load serialized_data (o_state <$> existing_model)
  ∧ o_row model_obj = existing_model ≫= o_row
  ∧ ∃ saved s',
      _save_model model_obj method s = Ok saved s'
      ∧ _save_serialized serialized_data existing_model s
        = Ok (serializer_dump saved) s'
      ∧ trace s' = trace s ++ SessionAdd saved ::
          match existing_model with
          | Some _ => [BeforePutCommit saved; SessionCommit; AfterPutCommit saved]
          | None => [BeforePostCommit saved; SessionCommit; AfterPostCommit saved]
          end.
Proof.
  intros model_obj method.
  split; [by destruct existing_model|]. split; [by destruct existing_model|].
  destruct (save_model_trace model_obj method s)
    as (saved & s' & Hsave & _ & _ & _ & _ & Htr).
  exists saved, s'. split; [done|]. split.
  - unfold _save_serialized, bind.
    replace (if obj_truthy existing_model then "PUT" else "POST")%string
      with method by (by destruct existing_model).
    fold model_obj. by rewrite Hsave.
  - rewrite Htr. subst method. by destruct existing_model.
Qed.

(** *** Deleting *)

(** C5. DELETE on a [ModelResource] answers 404 with the not-found body
    exactly when no row has the key; otherwise it deletes the instance,
    flushes, commits and answers an empty body with 204, after which the
    row is gone and the same DELETE answers 404, leaving the session as it
    is (so every further DELETE answers 404 too). *)
Theorem ModelResource_delete_spec s id :
  match rows s !! id with
  | None => ModelResource_delete id s = Ok NOT_FOUND s
  | Some m =>
      ∃ s', ModelResource_delete id s = Ok (VTuple [VStr ""; VInt 204]) s'
        ∧ trace s' = trace s ++
            [SessionDelete (mkObj (Some id) m); SessionFlush; SessionCommit]
        ∧ rows s' = foldr delete (rows s) (deleted s ++ [id])
        ∧ rows s' !! id = None
        ∧ ModelResource_delete id s' = Ok NOT_FOUND s'
  end.
Proof.
  unfold ModelResource_delete, bind, query_get.
  destruct (rows s !! id) as [m|] eqn:Hm; simpl; [|done].
  eexists. split; [reflexivity|]. simpl.
  assert (foldr delete (rows s) (deleted s ++ [id]) !! id = None) as Hgone.
  { rewrite lookup_foldr_delete, bool_decide_eq_true_2; [done|].
    apply elem_of_app. right. by left. }
  split; [by rewrite <- !app_assoc|]. split; [done|]. split; [done|].
  by rewrite Hgone.
Qed.

(** *** Updating *)



Lemma ModelResource_put_unfold (request : Request) id s :
  ModelResource_put request id s
  = match rows s !! id with
    | None => Ok NOT_FOUND s
    | Some m =>
        match _save_serialized (dict_update (dump m) (load_request_data request))
                               (Some (mkObj (Some id) m)) s with
        | Ok saved s' => Ok (VDict saved) s'
        | Raise e => Raise e
        end
    end.
Proof.
  unfold ModelResource_put, bind, query_get. by destruct (rows s !! id).
Qed.

Lemma ToManyRelationResource_put_unfold (request : Request) relation_id id s :
  ToManyRelationResource_put request relation_id id s
  = match (if is_member s relation_id id then rows s !! id else None) with
    | None => Ok NOT_FOUND s
    | Some m =>
        match _save_serialized (dict_update (dump m) (load_request_data request))
                               (Some (mkObj (Some id) m)) s with
        | Ok saved s' => Ok (VDict saved) s'
        | Raise e => Raise e
        end
    end.
Proof.
  unfold ToManyRelationResource_put, bind. rewrite query_related_obj_spec.
  by destruct (is_member s relation_id id), (rows s !! id).
Qed.


(** *** Reading under a parent *)

(** For a child id that is true, GET goes through the lookup. *)
Lemma get_truthy_id (request : Request) relation_id id s :
  id_truthy id = true →
  ToManyRelationResource_get request relation_id (Some id) s
  = Ok (match (if is_member s relation_id id then rows s !! id else None) with
        | Some m => VTuple [VDict (dump m); VInt 200]
        | None => NOT_FOUND
        end) s.
Proof.
  intros Ht. unfold ToManyRelationResource_get, bind.
  rewrite Ht, query_related_obj_spec.
  by destruct (is_member s relation_id id), (rows s !! id).
Qed.

(** For every parent id and child id the lookup answers nothing when the
    parent does not exist or the child is no member of its relation, even
    if a row with the child's key exists; PUT and DELETE then answer 404
    with the not-found body, and so does GET when the child id is true.
    When the child is a member, the lookup answers the child fetched by
    its key, which GET dumps with 200. *)
Theorem related_lookup_spec (request : Request) relation_id id s :
  let found :=
    if is_member s relation_id id then mkObj (Some id) <$> rows s !! id else None in
  _query_related_obj relation_id id s = Ok found s
  ∧ (found = None →
       ToManyRelationResource_put request relation_id id s = Ok NOT_FOUND s
       ∧ ToManyRelationResource_delete relation_id id s = Ok NOT_FOUND s
       ∧ (id_truthy id = true →
            ToManyRelationResource_get request relation_id (Some id) s
            = Ok NOT_FOUND s))
  ∧ (∀ m, is_member s relation_id id = true → rows s !! id = Some m →
       found = Some (mkObj (Some id) m)
       ∧ (id_truthy id = true →
            ToManyRelationResource_get request relation_id (Some id) s
            = Ok (VTuple [VDict (dump m); VInt 200]) s)).
Proof.
  intros found. pose proof (query_related_obj_spec s relation_id id) as Hq.
  fold found in Hq. split; [done|]. split.
  - intros Hnone. rewrite Hnone in Hq.
    unfold ToManyRelationResource_put, ToManyRelationResource_delete, bind.
    rewrite Hq. split; [done|]. split; [done|].
    intros Ht. rewrite get_truthy_id by done. subst found.
    destruct (is_member s relation_id id); [|done].
    by destruct (rows s !! id).
  - intros m Hmem Hm. subst found. rewrite Hmem, Hm in *. split; [done|].
    intros Ht. by rewrite get_truthy_id, Hmem, Hm.
Qed.


(** *** Derived collections *)

Lemma relation_items_states s (r : Related) :
  ∃ items, relation_items r s = Ok items s
           ∧ o_state <$> items = member_rows s r.
Proof.
  eexists. split; [reflexivity|]. unfold member_rows.
  induction (rel_members r) as [|k ks IH]; [done|].
  cbn. destruct (rows s !! k); cbn; [f_equal|]; apply IH.
Qed.

(** C9. GET on a [CollectionPropertyResource] does not look at the child
    id: for every id the response is the one for no id; it is 404 only
    when the parent is absent, and otherwise the collection (the dumped
    members, or what [query_from_request] answers for a query-capable
    value), which [dispatch_request] sends with status 200. *)
Theorem property_get_ignores_id
    (property_name : string) (request : Request) relation_id (id : option pyid) s :
  CollectionPropertyResource_get property_name request relation_id id s
  = CollectionPropertyResource_get property_name request relation_id None s
  ∧ match related s !! relation_id with
    | None =>
        CollectionPropertyResource_get property_name request relation_id id s
        = Ok NOT_FOUND s
    | Some r =>
        ∃ collection s',
          CollectionPropertyResource_get property_name request relation_id id s
          = Ok collection s'
          ∧ collection
            = (if rel_dynamic r
               then listing_value (query_from_request request (member_rows s r))
               else VList ((λ m, VDict (dump m)) <$> member_rows s r))
          ∧ rows s' = rows s ∧ related s' = related s
          ∧ dispatch_request
              (CollectionPropertyResource_get property_name request relation_id id) s
            = Ok (collection, VInt 200, VDict ∅) s'
    end.
Proof.
  split; [done|].
  unfold dispatch_request, CollectionPropertyResource_get, bind, query_related_get.
  destruct (related s !! relation_id) as [r|]; simpl; [|done].
  destruct (relation_items_states s r) as (items & Hitems & Hst).
  unfold relation_items in Hitems. injection Hitems as Hitems.
  rewrite Hitems. destruct (rel_dynamic r); simpl.
  - rewrite Hst. eexists _, _. split; [reflexivity|]. split; [done|].
    split; [done|]. split; [done|].
    by destruct (query_from_request request (member_rows s r)).
  - eexists _, _. split; [reflexivity|]. split.
    + rewrite <- Hst. unfold serializer_dump. by rewrite <- list_fmap_compose.
    + done.
Qed.

(** *** Attaching and creating under a parent *)

(** C3. POST on a [ToManyRelationResource] under an existing parent.  With
    an 'id' member that is not null, the child is fetched from the whole
    child table by the key the column identifies for that value: 404 with
    the not-found body if there is none;
    otherwise it is appended to the relation and the session commits, no
    row is added, no hook is called, and the answer is the dumped child
    with 200.  With no 'id' member, one new row is inserted for the
    instance loaded from the document, it is appended to the relation, the
    POST hooks are called once each around the commit, and the answer is
    the dumped new instance with 201. *)
Theorem post_attach_or_create (request : Request) relation_id (r : Related) s :
  related s !! relation_id = Some r →
  deleted s = [] →
  let data_dict := load_request_data request in
  let appended k :=
    <[relation_id := mkRelated (rel_dynamic r) (rel_members r ++ [k])]> (related s) in
  (∀ resource_id,
     data_dict !! "id"%string = Some resource_id → is_not_None resource_id = true →
     match identify resource_id ≫= (λ k, pair k <$> rows s !! k) with
     | None => ToManyRelationResource_post request relation_id s = Ok NOT_FOUND s
     | Some (k, m) =>
         ∃ s', ToManyRelationResource_post request relation_id s
               = Ok (VTuple [VDict (dump m); VInt 200]) s'
             ∧ rows s' = rows s
             ∧ related s' = appended k
             ∧ trace s' = trace s ++
                 [CollectionAppend relation_id (mkObj (Some k) m); SessionCommit]
     end)
  ∧ (data_dict !! "id"%string = None →
     let k := fresh_pk (rows s) in
     let m := assign_pk k (load data_dict None) in
     let new_obj := mkObj (Some k) m in
     rows s !! k = None
     ∧ ∃ s', ToManyRelationResource_post request relation_id s
             = Ok (VTuple [VDict (dump m); VInt 201]) s'
           ∧ rows s' = <[k := m]> (rows s)
           ∧ related s' = appended k
           ∧ trace s' = trace s ++
               [SessionAdd new_obj; CollectionAppend relation_id new_obj;
                SessionAdd new_obj; BeforePostCommit new_obj; SessionCommit;
                AfterPostCommit new_obj]).
Proof.
  intros Hr Hdel data_dict appended.
  assert (∀ k, alter (λ r0, mkRelated (rel_dynamic r0) (rel_members r0 ++ [k]))
                 relation_id (related s) = appended k) as Halter.
  { intros k. subst appended. simpl.
    apply map_eq. intros i. destruct (decide (relation_id = i)) as [<-|Hne].
    - by rewrite lookup_alter_eq, lookup_insert_eq, Hr.
    - by rewrite lookup_alter_ne, lookup_insert_ne. }
  split.
  - intros resource_id Hid Hnn.
    unfold ToManyRelationResource_post, bind, query_related_get.
    rewrite Hr. simpl. fold data_dict. unfold dict_get_id. rewrite Hid, Hnn.
    unfold append_existent, bind, query_get_json.
    replace (key_of_json resource_id) with (identify resource_id)
      by (by destruct resource_id).
    destruct (identify resource_id) as [k|]; simpl; [|done].
    destruct (rows s !! k) as [m|] eqn:Hm; simpl; [|done].
    eexists. split; [reflexivity|]. cbn [rows related trace].
    rewrite Hdel, forget_nothing, Halter, <- app_assoc. done.
  - intros Hid k m new_obj. split; [apply fresh_pk_fresh|].
    unfold ToManyRelationResource_post, bind, query_related_get.
    rewrite Hr. simpl. fold data_dict. unfold dict_get_id. rewrite Hid. simpl.
    fold k m new_obj.
    eexists. split; [reflexivity|]. cbn [rows related trace].
    rewrite Hdel, forget_nothing, Halter, insert_insert_eq, <- !app_assoc. done.
Qed.

(** *** Reads and refusals leave the session alone *)

(** The listing of a relation under a parent: 404 exactly when the
    parent row is absent; for a plain list the dumps of the member rows in
    the order of the relation, with one warning recorded; for a
    query-capable value what [query_from_request] answers.  The tables do
    not change and the response goes out with status 200. *)
Theorem ToManyRelationResource_listing (request : Request) relation_id s :
  match related s !! relation_id with
  | None =>
      ToManyRelationResource_get request relation_id None s = Ok NOT_FOUND s
  | Some r =>
      ∃ collection s',
        ToManyRelationResource_get request relation_id None s = Ok collection s'
        ∧ collection
          = (if rel_dynamic r
             then listing_value (query_from_request request (member_rows s r))
             else VList ((λ m, VDict (dump m)) <$> member_rows s r))
        ∧ rows s' = rows s ∧ related s' = related s ∧ deleted s' = deleted s
        ∧ trace s'
          = trace s ++ (if rel_dynamic r then [] else [Warning RELATION_WARNING])
        ∧ dispatch_request
            (ToManyRelationResource_get request relation_id None) s
          = Ok (collection, VInt 200, VDict ∅) s'
  end.
Proof.
  unfold dispatch_request, ToManyRelationResource_get,
    ToManyRelationResource_get_collection, bind, query_related_get.
  destruct (related s !! relation_id) as [r|]; simpl; [|done].
  destruct (relation_items_states s r) as (items & Hrun & Hst).
  unfold relation_items in Hrun. injection Hrun as Hrun. rewrite Hrun.
  destruct (rel_dynamic r); simpl.
  - rewrite Hst, app_nil_r. eexists _, _. split; [reflexivity|].
    do 5 (split; [done|]).
    by destruct (query_from_request request (member_rows s r)).
  - eexists _, _. split; [reflexivity|]. split; [|by repeat split].
    rewrite <- Hst. unfold serializer_dump. by rewrite <- list_fmap_compose.
Qed.

Lemma get_collection_run (request : Request) relation_id s :
  ∃ v s', ToManyRelationResource_get_collection request relation_id s = Ok v s'
    ∧ rows s' = rows s ∧ related s' = related s ∧ deleted s' = deleted s
    ∧ (trace s' = trace s ∨ trace s' = trace s ++ [Warning RELATION_WARNING])
    ∧ (v = NOT_FOUND → s' = s).
Proof.
  unfold ToManyRelationResource_get_collection, bind, query_related_get.
  destruct (related s !! relation_id) as [r|]; simpl.
  - destruct (rel_dynamic r); simpl; eexists _, _; (split; [reflexivity|]);
      simpl; repeat split; auto; try discriminate;
      by destruct (query_from_request _ _).
  - eexists _, _. split; [reflexivity|]. by repeat split; auto.
Qed.

Lemma property_get_run (property_name : string) (request : Request)
    relation_id (id : option pyid) s :
  ∃ v s', CollectionPropertyResource_get property_name request relation_id id s
          = Ok v s'
    ∧ rows s' = rows s ∧ related s' = related s ∧ deleted s' = deleted s
    ∧ (trace s' = trace s
       ∨ trace s' = trace s ++ [Warning (property_warning property_name)])
    ∧ (v = NOT_FOUND → s' = s).
Proof.
  unfold CollectionPropertyResource_get, bind, query_related_get.
  destruct (related s !! relation_id) as [r|]; simpl.
  - destruct (rel_dynamic r); simpl; eexists _, _; (split; [reflexivity|]);
      simpl; repeat split; auto; try discriminate;
      by destruct (query_from_request _ _).
  - eexists _, _. split; [reflexivity|]. by repeat split; auto.
Qed.

Lemma relation_get_run (request : Request) relation_id (id : option pyid) s :
  ∃ v s', ToManyRelationResource_get request relation_id id s = Ok v s'
    ∧ rows s' = rows s ∧ related s' = related s ∧ deleted s' = deleted s
    ∧ (trace s' = trace s ∨ trace s' = trace s ++ [Warning RELATION_WARNING])
    ∧ (v = NOT_FOUND → s' = s).
Proof.
  destruct id as [id|]; [|apply get_collection_run].
  destruct (id_truthy id) eqn:Ht.
  - rewrite get_truthy_id by done. eexists _, _. split; [reflexivity|].
    repeat split; auto.
  - unfold ToManyRelationResource_get. rewrite Ht. apply get_collection_run.
Qed.

Lemma model_get_run (request : Request) (id : option pyid) s :
  ∃ v, ModelResource_get request id s = Ok v s.
Proof.
  unfold ModelResource_get, bind, query_get, query_all.
  destruct id as [id|]; [|by eexists].
  destruct (rows s !! id); by eexists.
Qed.

(** GET never raises and never changes a table or the pending deletions,
    on any of the three resources and for any arguments; all it can add to
    the trace is one warning. *)
Theorem get_reads_only
    (property_name : string) (request : Request) relation_id (id : option pyid) s :
  (∃ v, ModelResource_get request id s = Ok v s)
  ∧ (∃ v s', ToManyRelationResource_get request relation_id id s = Ok v s'
       ∧ rows s' = rows s ∧ related s' = related s ∧ deleted s' = deleted s
       ∧ (trace s' = trace s ∨ trace s' = trace s ++ [Warning RELATION_WARNING]))
  ∧ (∃ v s', CollectionPropertyResource_get property_name request relation_id id s
             = Ok v s'
       ∧ rows s' = rows s ∧ related s' = related s ∧ deleted s' = deleted s
       ∧ (trace s' = trace s
          ∨ trace s' = trace s ++ [Warning (property_warning property_name)])).
Proof.
  split; [|split].
  - apply model_get_run.
  - destruct (relation_get_run request relation_id id s)
      as (v & s' & H & H1 & H2 & H3 & H4 & _). by exists v, s'.
  - destruct (property_get_run property_name request relation_id id s)
      as (v & s' & H & H1 & H2 & H3 & H4 & _). by exists v, s'.
Qed.

Lemma save_serialized_runs (serialized : Doc) (existing : option Obj) s :
  ∃ saved s', _save_serialized serialized existing s = Ok saved s'.
Proof.
  unfold _save_serialized, bind.
  destruct (save_model_trace (serializer_load serialized existing)
              (if obj_truthy existing then "PUT" else "POST")%string s)
    as (saved & s' & -> & _). by eexists _, _.
Qed.

(** A request that is answered with the not-found response has done
    nothing: no row or relation changed, nothing added, deleted, flushed
    or committed, no hook called. *)
Theorem not_found_leaves_session
    (property_name : string) (request : Request) relation_id id (oid : option pyid)
    s s' :
  (ModelResource_get request oid s = Ok NOT_FOUND s' → s' = s)
  ∧ (ModelResource_put request id s = Ok NOT_FOUND s' → s' = s)
  ∧ (ModelResource_delete id s = Ok NOT_FOUND s' → s' = s)
  ∧ (ToManyRelationResource_get request relation_id oid s = Ok NOT_FOUND s'
     → s' = s)
  ∧ (ToManyRelationResource_post request relation_id s = Ok NOT_FOUND s'
     → s' = s)
  ∧ (ToManyRelationResource_put request relation_id id s = Ok NOT_FOUND s'
     → s' = s)
  ∧ (ToManyRelationResource_delete relation_id id s = Ok NOT_FOUND s' → s' = s)
  ∧ (CollectionPropertyResource_get property_name request relation_id oid s
     = Ok NOT_FOUND s' → s' = s).
Proof.
  repeat split.
  - destruct (model_get_run request oid s) as (v & ->). by intros [= _ ->].
  - rewrite ModelResource_put_unfold. destruct (rows s !! id) as [m|].
    + destruct (save_serialized_runs
                  (dict_update (dump m) (load_request_data request))
                  (Some (mkObj (Some id) m)) s) as (saved & s1 & ->).
      discriminate.
    + by intros [= ->].
  - unfold ModelResource_delete, bind, query_get.
    destruct (rows s !! id); simpl; [discriminate | by intros [= ->]].
  - destruct (relation_get_run request relation_id oid s)
      as (v & s1 & -> & _ & _ & _ & _ & Hnf). intros [= -> ->]. by apply Hnf.
  - unfold ToManyRelationResource_post, bind, query_related_get.
    destruct (related s !! relation_id) as [r|]; simpl; [|by intros [= ->]].
    destruct (is_not_None (dict_get_id (load_request_data request))).
    + unfold append_existent, bind, query_get_json.
      destruct (key_of_json _) as [k|]; simpl; [|by intros [= ->]].
      destruct (rows s !! k); simpl; [discriminate | by intros [= ->]].
    + simpl. discriminate.
  - rewrite ToManyRelationResource_put_unfold.
    destruct (if is_member s relation_id id then rows s !! id else None) as [m|].
    + destruct (save_serialized_runs
                  (dict_update (dump m) (load_request_data request))
                  (Some (mkObj (Some id) m)) s) as (saved & s1 & ->).
      discriminate.
    + by intros [= ->].
  - unfold ToManyRelationResource_delete, bind.
    rewrite query_related_obj_spec.
    destruct (is_member s relation_id id), (rows s !! id); simpl;
      (discriminate || by intros [= ->]).
  - destruct (property_get_run property_name request relation_id oid s)
      as (v & s1 & -> & _ & _ & _ & _ & Hnf). intros [= -> ->]. by apply Hnf.
Qed.

(** *** Creating, updating and deleting *)

Lemma max_int_key_nonneg (t : gmap pyid Model) : 0 ≤ max_int_key t.
Proof.
  unfold max_int_key.
  apply (map_fold_weak_ind (λ acc _, 0 ≤ acc)); [lia|].
  intros i x t' r _ IH. destruct i; lia.
Qed.

(** A generated key is never a false id. *)
Lemma fresh_pk_truthy (t : gmap pyid Model) : id_truthy (fresh_pk t) = true.
Proof.
  unfold fresh_pk, id_truthy. pose proof (max_int_key_nonneg t).
  destruct (Z.eqb_spec (1 + max_int_key t) 0); [lia | done].
Qed.

Lemma referential_spec s :
  referential s = true
  ↔ ∀ rid (r : Related) k,
      related s !! rid = Some r → k ∈ rel_members r → is_Some (rows s !! k).
Proof.
  unfold referential. rewrite bool_decide_eq_true. unfold map_Forall. split.
  - intros Hall rid r k Hr Hk. specialize (Hall rid r Hr).
    rewrite Forall_forall in Hall. by apply Hall.
  - intros Hall rid r Hr. apply Forall_forall. intros k Hk. by eapply Hall.
Qed.

(** A row inserted under a key no member has is in no relation. *)
Lemma member_rows_insert_fresh k m (t : gmap pyid Model) rel del tr (r : Related) :
  k ∉ rel_members r →
  member_rows (mkSession (<[k := m]> t) rel del tr) r
  = omap (λ k', t !! k') (rel_members r).
Proof.
  unfold member_rows. cbn [rows].
  induction (rel_members r) as [|k' ks IH]; [done|].
  intros Hnotin. apply not_elem_of_cons in Hnotin as [Hne Hnotin].
  cbn [omap list_omap]. rewrite lookup_insert_ne by done. by rewrite IH.
Qed.

(** POST on a [ModelResource], on a store in which every member of a
    relation has a row, inserts one row, for the instance loaded from the
    request document, under a key no row had; every other row is as
    before and the new row is a member of no relation, so that every
    parent lists the rows it listed before; the POST hooks are called once
    each around the one commit; the answer is the dump of the new row with
    201, and a GET by the new key answers that same dump. *)
Theorem ModelResource_post_creates (request : Request) s :
  deleted s = [] → referential s = true →
  let k := fresh_pk (rows s) in
  let m := assign_pk k (load (load_request_data request) None) in
  let new_obj := mkObj (Some k) m in
  rows s !! k = None
  ∧ ∃ s', ModelResource_post request s = Ok (VTuple [VDict (dump m); VInt 201]) s'
        ∧ rows s' = <[k := m]> (rows s)
        ∧ related s' = related s
        ∧ (∀ rid, is_member s' rid k = false)
        ∧ (∀ rid r, related s !! rid = Some r → member_rows s' r = member_rows s r)
        ∧ referential s' = true
        ∧ trace s' = trace s ++
            [SessionAdd new_obj; BeforePostCommit new_obj; SessionCommit;
             AfterPostCommit new_obj]
        ∧ ModelResource_get request (Some k) s' = Ok (VDict (dump m)) s'.
Proof.
  intros Hdel Href k m new_obj.
  assert (rows s !! k = None) as Hfresh by apply fresh_pk_fresh.
  split; [done|].
  unfold ModelResource_post, _save_serialized, bind.
  destruct (save_model_trace
              (serializer_load (load_request_data request) None) "POST" s)
    as (saved & s' & Hrun & Hsaved & Hrows & Hrel & _ & Htr).
  simpl obj_truthy. cbv iota. rewrite Hrun. simpl in Hsaved, Hrows, Htr.
  fold k m in Hsaved, Hrows. rewrite Hdel in Hrows. simpl in Hrows.
  rewrite Hdel, forget_nothing in Hrel.
  subst saved. fold new_obj in Htr.
  assert (∀ rid (r : Related), related s !! rid = Some r → k ∉ rel_members r)
    as Hnotin.
  { intros rid r Hr Hin.
    destruct (proj1 (referential_spec s) Href rid r k Hr Hin) as [x Hx].
    congruence. }
  exists s'. split; [done|]. split; [done|]. split; [done|].
  split; [|split; [|split; [|split; [done|]]]].
  - intros rid. unfold is_member. rewrite Hrel.
    destruct (related s !! rid) as [r|] eqn:Hr; [|done].
    apply bool_decide_eq_false_2. by eapply Hnotin.
  - intros rid r Hr. destruct s' as [rows' rel' del' tr']. cbn [rows] in Hrows.
    subst rows'. rewrite member_rows_insert_fresh by (by eapply Hnotin). done.
  - apply referential_spec. intros rid r k' Hr Hk'. rewrite Hrel in Hr.
    rewrite Hrows.
    destruct (proj1 (referential_spec s) Href rid r k' Hr Hk') as [x Hx].
    destruct (decide (k = k')) as [<-|Hne]; [congruence|].
    rewrite lookup_insert_ne by done. by rewrite Hx.
  - unfold ModelResource_get, bind, query_get.
    by rewrite Hrows, lookup_insert_eq.
Qed.

Lemma put_run (request : Request) id m s :
  rows s !! id = Some m → deleted s = [] →
  let stored := load (dict_update (dump m) (load_request_data request)) (Some m) in
  ∃ s', ModelResource_put request id s = Ok (VDict (dump stored)) s'
      ∧ rows s' = <[id := stored]> (rows s)
      ∧ related s' = related s
      ∧ deleted s' = [].
Proof.
  intros Hm Hdel stored. rewrite ModelResource_put_unfold, Hm.
  unfold _save_serialized, bind.
  destruct (save_model_trace
              (serializer_load (dict_update (dump m) (load_request_data request))
                               (Some (mkObj (Some id) m))) "PUT" s)
    as (saved & s' & Hrun & Hsaved & Hrows & Hrel & Hdel' & _).
  simpl obj_truthy. cbv iota. rewrite Hrun.
  simpl in Hsaved, Hrows. rewrite Hdel in Hrows. simpl in Hrows. subst saved.
  rewrite Hdel, forget_nothing in Hrel.
  by exists s'.
Qed.

(** After a PUT on an existing row, a GET by the same key answers the
    document the PUT answered; no other row and no relation has changed,
    and no row was added or removed. *)
Theorem put_then_get (request request' : Request) id m s :
  rows s !! id = Some m → deleted s = [] →
  ∃ doc s',
    ModelResource_put request id s = Ok (VDict doc) s'
    ∧ ModelResource_get request' (Some id) s' = Ok (VDict doc) s'
    ∧ (∀ k, k ≠ id → rows s' !! k = rows s !! k)
    ∧ dom (rows s') = dom (rows s)
    ∧ related s' = related s.
Proof.
  intros Hm Hdel. destruct (put_run request id m s Hm Hdel)
    as (s' & Hput & Hrows & Hrel & _).
  eexists _, s'. split; [exact Hput|]. split; [|split; [|split; [|done]]].
  - unfold ModelResource_get, bind, query_get.
    by rewrite Hrows, lookup_insert_eq.
  - intros k Hk. by rewrite Hrows, lookup_insert_ne.
  - rewrite Hrows, dom_insert_L.
    apply subseteq_union_1_L, singleton_subseteq_l, elem_of_dom.
    by rewrite Hm.
Qed.

(** When a dump of what the serializer loaded is the loaded document
    again, a second PUT of the same request answers the same document as
    the first. *)
Theorem put_twice (request : Request) id m s :
  (∀ (d : Doc) (existing : Model), dump (load d (Some existing)) = d) →
  rows s !! id = Some m → deleted s = [] →
  ∃ doc s1 s2,
    ModelResource_put request id s = Ok (VDict doc) s1
    ∧ ModelResource_put request id s1 = Ok (VDict doc) s2
    ∧ doc = dict_update (dump m) (load_request_data request).
Proof.
  intros Hlaw Hm Hdel.
  destruct (put_run request id m s Hm Hdel) as (s1 & Hput1 & Hrows1 & _ & Hdel1).
  set (stored := load (dict_update (dump m) (load_request_data request)) (Some m))
    in *.
  assert (rows s1 !! id = Some stored) as Hm1
    by (by rewrite Hrows1, lookup_insert_eq).
  destruct (put_run request id stored s1 Hm1 Hdel1) as (s2 & Hput2 & _).
  exists (dict_update (dump m) (load_request_data request)), s1, s2.
  rewrite Hput1, Hput2. subst stored. rewrite !Hlaw.
  split; [done|]. split; [|done]. do 2 f_equal.
  unfold dict_update. apply map_eq. intros key.
  rewrite !lookup_union.
  by destruct (load_request_data request !! key), (dump m !! key).
Qed.

Lemma forget_members_one id (r : Related) :
  forget_members [id] r
  = mkRelated (rel_dynamic r) (filter (λ k, k ≠ id) (rel_members r)).
Proof.
  unfold forget_members. f_equal. apply list_filter_iff.
  intros k. by rewrite list_elem_of_singleton.
Qed.

(** What delete, flush and commit leave of a store with nothing else
    pending. *)
Lemma ModelResource_delete_run id m s :
  rows s !! id = Some m → deleted s = [] →
  ModelResource_delete id s
  = Ok (VTuple [VStr ""; VInt 204])
       (mkSession (delete id (rows s)) (forget_members [id] <$> related s) []
          (trace s ++ [SessionDelete (mkObj (Some id) m); SessionFlush;
                       SessionCommit])).
Proof.
  intros Hm Hdel. unfold ModelResource_delete, bind, query_get.
  rewrite Hm. cbn [fmap option_fmap option_map].
  unfold session_delete, session_deleted_len, session_flush, session_commit,
    emit, ret, flush_deleted.
  cbn [rows related deleted trace o_row]. rewrite Hdel.
  cbn [app foldr]. rewrite forget_nothing, <- !app_assoc. reflexivity.
Qed.

(** DELETE on a [ModelResource] removes the one row and its membership:
    every other row is as before, and every relation keeps its other
    members, in their order. *)
Theorem ModelResource_delete_frame id m s :
  rows s !! id = Some m → deleted s = [] →
  ∃ s', ModelResource_delete id s = Ok (VTuple [VStr ""; VInt 204]) s'
      ∧ rows s' = delete id (rows s)
      ∧ (∀ k, k ≠ id → rows s' !! k = rows s !! k)
      ∧ (∀ rid,
           related s' !! rid
           = (λ r, mkRelated (rel_dynamic r)
                             (filter (λ k, k ≠ id) (rel_members r)))
             <$> related s !! rid)
      ∧ (∀ rid k, k ≠ id → is_member s' rid k = is_member s rid k)
      ∧ (∀ rid, is_member s' rid id = false).
Proof.
  intros Hm Hdel. eexists. split; [by apply ModelResource_delete_run|].
  cbn [rows related]. split; [done|]. split; [|split; [|split]].
  - intros k Hk. by rewrite lookup_delete_ne.
  - intros rid. rewrite lookup_fmap.
    destruct (related s !! rid) as [r|]; [|done].
    cbn [fmap option_fmap option_map]. by rewrite forget_members_one.
  - intros rid k Hk. unfold is_member. cbn [related]. rewrite lookup_fmap.
    destruct (related s !! rid) as [r|]; [|done].
    cbn [fmap option_fmap option_map]. rewrite forget_members_one.
    cbn [rel_members].
    apply bool_decide_ext. rewrite list_elem_of_filter.
    split; [by intros [_ ?] | by intros ?].
  - intros rid. unfold is_member. cbn [related]. rewrite lookup_fmap.
    destruct (related s !! rid) as [r|]; [|done].
    cbn [fmap option_fmap option_map]. rewrite forget_members_one.
    cbn [rel_members].
    apply bool_decide_eq_false_2. rewrite list_elem_of_filter.
    intros [Hne _]. by apply Hne.
Qed.

Lemma member_rows_delete id (t : gmap pyid Model) rel del tr (r : Related) :
  member_rows (mkSession (delete id t) rel del tr) r
  = omap (λ k, t !! k) (filter (λ k, k ≠ id) (rel_members r)).
Proof.
  unfold member_rows. cbn [rows].
  induction (rel_members r) as [|k ks IH]; [done|].
  rewrite filter_cons. destruct (decide (k ≠ id)) as [Hne|Heq].
  - cbn [omap list_omap]. rewrite lookup_delete_ne by done. by rewrite IH.
  - apply dec_stable in Heq as ->. cbn [omap list_omap].
    by rewrite lookup_delete_eq.
Qed.

(** DELETE of a child under its parent: the row is deleted, flushed and
    committed and the answer is empty with 204; afterwards the child is
    not found, neither under the parent by GET, PUT or DELETE nor by key
    on the [ModelResource], and the rows a listing of the parent shows are
    those of the other members. *)
Theorem ToManyRelationResource_delete_spec
    (request : Request) relation_id (r : Related) id m s :
  related s !! relation_id = Some r → id ∈ rel_members r →
  rows s !! id = Some m → deleted s = [] →
  ∃ s', ToManyRelationResource_delete relation_id id s
        = Ok (VTuple [VStr ""; VInt 204]) s'
      ∧ trace s' = trace s ++
          [SessionDelete (mkObj (Some id) m); SessionFlush; SessionCommit]
      ∧ rows s' = delete id (rows s)
      ∧ related s' = forget_members [id] <$> related s
      ∧ ToManyRelationResource_delete relation_id id s' = Ok NOT_FOUND s'
      ∧ ToManyRelationResource_put request relation_id id s' = Ok NOT_FOUND s'
      ∧ (id_truthy id = true →
           ToManyRelationResource_get request relation_id (Some id) s'
           = Ok NOT_FOUND s')
      ∧ ModelResource_get request (Some id) s' = Ok NOT_FOUND s'
      ∧ member_rows s' r
        = omap (λ k, rows s !! k) (filter (λ k, k ≠ id) (rel_members r)).
Proof.
  intros Hr Hin Hm Hdel.
  assert (is_member s relation_id id = true) as Hmem.
  { unfold is_member. rewrite Hr. by apply bool_decide_eq_true_2. }
  set (s' := mkSession (delete id (rows s)) (forget_members [id] <$> related s) []
               (trace s ++ [SessionDelete (mkObj (Some id) m); SessionFlush;
                            SessionCommit])).
  assert (ToManyRelationResource_delete relation_id id s
          = Ok (VTuple [VStr ""; VInt 204]) s') as Hrun.
  { unfold ToManyRelationResource_delete, bind.
    rewrite query_related_obj_spec, Hmem, Hm.
    cbn [fmap option_fmap option_map].
    unfold session_delete, session_deleted_len, session_flush, session_commit,
      emit, ret, flush_deleted.
    cbn [rows related deleted trace o_row]. rewrite Hdel.
    cbn [app foldr]. by rewrite forget_nothing, <- !app_assoc. }
  exists s'. split; [exact Hrun|]. do 3 (split; [done|]).
  assert (rows s' !! id = None) as Hgone by apply lookup_delete_eq.
  split; [|split; [|split; [|split]]].
  - unfold ToManyRelationResource_delete, bind.
    rewrite query_related_obj_spec, Hgone. by destruct (is_member s' relation_id id).
  - rewrite ToManyRelationResource_put_unfold, Hgone.
    by destruct (is_member s' relation_id id).
  - intros Ht. rewrite get_truthy_id, Hgone by done.
    by destruct (is_member s' relation_id id).
  - unfold ModelResource_get, bind, query_get. by rewrite Hgone.
  - apply member_rows_delete.
Qed.

(** *** POST under a parent, then GET *)

Lemma append_member (relation_id k : pyid) (r : Related) s :
  related s !! relation_id = Some r →
  alter (λ r0, mkRelated (rel_dynamic r0) (rel_members r0 ++ [k]))
        relation_id (related s) !! relation_id
  = Some (mkRelated (rel_dynamic r) (rel_members r ++ [k])).
Proof. intros Hr. by rewrite lookup_alter_eq, Hr. Qed.

Lemma post_attach_run (request : Request) relation_id (r : Related) j k m s :
  related s !! relation_id = Some r → deleted s = [] →
  load_request_data request !! "id"%string = Some j →
  key_of_json j = Some k → rows s !! k = Some m →
  ToManyRelationResource_post request relation_id s
  = Ok (VTuple [VDict (dump m); VInt 200])
       (mkSession (rows s)
          (alter (λ r0, mkRelated (rel_dynamic r0) (rel_members r0 ++ [k]))
                 relation_id (related s))
          []
          (trace s ++ [CollectionAppend relation_id (mkObj (Some k) m);
                       SessionCommit])).
Proof.
  intros Hr Hdel Hid Hkey Hm.
  unfold ToManyRelationResource_post, bind, query_related_get.
  rewrite Hr. simpl. unfold dict_get_id. rewrite Hid.
  replace (is_not_None j) with true by (by destruct j).
  unfold append_existent, bind, query_get_json. rewrite Hkey.
  unfold query_get. rewrite Hm. cbn [fmap option_fmap option_map].
  unfold collection_append, session_commit, emit, ret, flush_deleted.
  cbn [o_row rows related deleted trace].
  by rewrite Hdel, forget_nothing, <- app_assoc.
Qed.

Lemma post_create_run (request : Request) relation_id (r : Related) s :
  related s !! relation_id = Some r → deleted s = [] →
  is_not_None (dict_get_id (load_request_data request)) = false →
  let k := fresh_pk (rows s) in
  let m := assign_pk k (load (load_request_data request) None) in
  let new_obj := mkObj (Some k) m in
  ToManyRelationResource_post request relation_id s
  = Ok (VTuple [VDict (dump m); VInt 201])
       (mkSession (<[k := m]> (rows s))
          (alter (λ r0, mkRelated (rel_dynamic r0) (rel_members r0 ++ [k]))
                 relation_id (related s))
          []
          (trace s ++ [SessionAdd new_obj; CollectionAppend relation_id new_obj;
                       SessionAdd new_obj; BeforePostCommit new_obj;
                       SessionCommit; AfterPostCommit new_obj])).
Proof.
  intros Hr Hdel Hnone k m new_obj.
  unfold ToManyRelationResource_post, bind, query_related_get.
  rewrite Hr. cbn [fmap option_fmap option_map]. rewrite Hnone. cbv iota.
  unfold session_add, collection_append, _save_model, session_add,
    session_commit, emit, ret, bind, flush_deleted, attach, serializer_load,
    serializer_dump.
  cbn [o_row o_state rows related deleted trace String.eqb Ascii.eqb Bool.eqb].
  fold k m new_obj.
  by rewrite Hdel, forget_nothing, insert_insert_eq, <- !app_assoc.
Qed.

(** Attaching an existing child by its key makes it a member: the POST
    answers its dump with 200 and changes no row, and from then on a GET
    by that key under the parent answers the same dump with 200, whether
    or not the child was a member before. *)
Theorem post_attach_then_get
    (request request' : Request) relation_id (r : Related) j k m s :
  related s !! relation_id = Some r → deleted s = [] →
  load_request_data request !! "id"%string = Some j →
  key_of_json j = Some k → rows s !! k = Some m → id_truthy k = true →
  ∃ s', ToManyRelationResource_post request relation_id s
        = Ok (VTuple [VDict (dump m); VInt 200]) s'
      ∧ rows s' = rows s
      ∧ is_member s' relation_id k = true
      ∧ ToManyRelationResource_get request' relation_id (Some k) s'
        = Ok (VTuple [VDict (dump m); VInt 200]) s'.
Proof.
  intros Hr Hdel Hid Hkey Hm Ht.
  eexists. split; [by eapply post_attach_run|]. split; [done|].
  match goal with |- is_member ?s1 _ _ = _ ∧ _ => set (s' := s1) end.
  assert (is_member s' relation_id k = true) as Hmem.
  { unfold is_member. cbn [related s']. erewrite append_member by done.
    cbn [rel_members]. apply bool_decide_eq_true_2, elem_of_app.
    right. by left. }
  split; [done|]. rewrite get_truthy_id, Hmem by done.
  cbn [rows s']. by rewrite Hm.
Qed.

(** A child created by POST under a parent is a member of the relation
    under a key no row had: the POST answers its dump with 201, and from
    then on a GET by the new key answers the same dump, under the parent
    with 200 and on the [ModelResource]; a document whose 'id' is null
    creates as one with no 'id' does. *)
Theorem post_create_then_get
    (request request' : Request) relation_id (r : Related) s :
  related s !! relation_id = Some r → deleted s = [] →
  is_not_None (dict_get_id (load_request_data request)) = false →
  ∃ k doc s',
    rows s !! k = None
    ∧ ToManyRelationResource_post request relation_id s
      = Ok (VTuple [VDict doc; VInt 201]) s'
    ∧ dom (rows s') = {[k]} ∪ dom (rows s)
    ∧ (∀ k', k' ≠ k → rows s' !! k' = rows s !! k')
    ∧ is_member s' relation_id k = true
    ∧ ToManyRelationResource_get request' relation_id (Some k) s'
      = Ok (VTuple [VDict doc; VInt 200]) s'
    ∧ ModelResource_get request' (Some k) s' = Ok (VDict doc) s'.
Proof.
  intros Hr Hdel Hnone.
  pose proof (post_create_run request relation_id r s Hr Hdel Hnone) as Hrun.
  cbv zeta in Hrun.
  set (k := fresh_pk (rows s)) in *.
  set (m := assign_pk k (load (load_request_data request) None)) in *.
  eexists k, (dump m), _. split; [apply fresh_pk_fresh|].
  split; [exact Hrun|].
  match goal with |- dom (rows ?s1) = _ ∧ _ => set (s' := s1) end.
  assert (is_member s' relation_id k = true) as Hmem.
  { unfold is_member. cbn [related s']. erewrite append_member by done.
    cbn [rel_members]. apply bool_decide_eq_true_2, elem_of_app.
    right. by left. }
  assert (rows s' !! k = Some m) as Hrow by apply lookup_insert_eq.
  split; [apply dom_insert_L|].
  split; [intros k' Hk'; cbn [rows s']; by rewrite lookup_insert_ne|].
  split; [done|]. split.
  - rewrite get_truthy_id, Hmem, Hrow; [done|]. apply fresh_pk_truthy.
  - unfold ModelResource_get, bind, query_get. by rewrite Hrow.
Qed.
End Facts.

(** *** Construction *)

(** C7. Constructing a resource with a serializer that is no
    [ModelSerializer] instance fails in [__init__] (with the assertion's
    error, or with [AttributeError] where the object takes no [strict]
    attribute), so no resource exists to handle a request; with a
    [ModelSerializer] instance it succeeds, whatever the decorators.  The
    same holds for the two relation resources, which construct through
    [BaseResource.__init__]. *)
Theorem init_requires_model_serializer
    {View : Type} (dispatch_request : View) (model related_model name : string)
    (relation_property : RelationProperty) (serializer : SerializerArg)
    (request_decorators : option (list (View → View))) :
  if isinstance_ModelSerializer serializer then
    (∃ self, BaseResource_init dispatch_request model serializer request_decorators
             = inr self
             ∧ _serializer _ self = ModelSerializerInstance true)
    ∧ (∃ self, ToManyRelationResource_init dispatch_request relation_property
                 serializer request_decorators = inr self)
    ∧ (∃ self, CollectionPropertyResource_init dispatch_request model related_model
                 name serializer request_decorators = inr self)
  else
    ∃ e, (e = AttributeError
          ∨ e = AssertionError
                  ("Invalid serializer instance: " +:+ serializer_repr serializer))
      ∧ BaseResource_init dispatch_request model serializer request_decorators
        = inl e
      ∧ ToManyRelationResource_init dispatch_request relation_property
          serializer request_decorators = inl e
      ∧ CollectionPropertyResource_init dispatch_request model related_model
          name serializer request_decorators = inl e.
Proof.
  destruct serializer as [strict|repr strict|repr]; simpl.
  - repeat split; eexists; try split; reflexivity.
  - eexists. split; [right; reflexivity|]. repeat split.
  - exists AttributeError. split; [by left|]. repeat split.
Qed.

(** The decorators wrap [dispatch_request] in the order of the list, each
    around the result of the one before. *)
Lemma init_decorators {View : Type} (dispatch_request : View) (model : string)
    strict (decorators : list (View → View)) :
  ∃ self, BaseResource_init dispatch_request model
            (ModelSerializerInstance strict) (Some decorators) = inr self
        ∧ _dispatch_request _ self
          = fold_left (λ d dec, dec d) decorators dispatch_request.
Proof. eexists. split; reflexivity. Qed.

(** The decorators of [request_decorators] are applied in the order of
    the list, each to the view the ones before it produced, so that the
    last decorator of the list is the outermost; with [None] or an empty
    list [dispatch_request] stays as it is. *)
Theorem init_decorators_order {View : Type} (dispatch_request : View)
    (model : string) (strict : bool)
    (decorators : list (View → View)) (last : View → View) :
  (∃ self, BaseResource_init dispatch_request model
             (ModelSerializerInstance strict) None = inr self
         ∧ _dispatch_request _ self = dispatch_request)
  ∧ (∃ self, BaseResource_init dispatch_request model
               (ModelSerializerInstance strict) (Some []) = inr self
           ∧ _dispatch_request _ self = dispatch_request)
  ∧ (∃ self self',
       BaseResource_init dispatch_request model
         (ModelSerializerInstance strict) (Some decorators) = inr self
       ∧ BaseResource_init dispatch_request model
           (ModelSerializerInstance strict) (Some (decorators ++ [last]))
         = inr self'
       ∧ _dispatch_request _ self' = last (_dispatch_request _ self)).
Proof.
  split; [by eexists|]. split; [by eexists|].
  eexists _, _. split; [reflexivity|]. split; [reflexivity|].
  simpl. by rewrite fold_left_app.
Qed.

(** PUT and DELETE on a [CollectionPropertyResource] fail on the missing
    attribute [_relation_property] before anything reaches the session,
    whatever the arguments, while on a [ToManyRelationResource] built from
    a relation they run the handlers. *)
Theorem property_resource_put_delete
    {Model View : Type}
    `{!ModelSerializer Model, !DeclarativeModel Model, !QueryBuilder Model}
    (dispatch_request : View) (model related_model name : string)
    (relation_property : RelationProperty) (serializer : SerializerArg)
    (request_decorators : option (list (View → View)))
    (self self' : Resource View)
    (request : Request) (relation_id id : pyid) (s : @Session Model) :
  CollectionPropertyResource_init dispatch_request model related_model name
    serializer request_decorators = inr self →
  ToManyRelationResource_init dispatch_request relation_property
    serializer request_decorators = inr self' →
  method_put self request relation_id id s = NoAttribute "_relation_property"
  ∧ method_delete self relation_id id s = NoAttribute "_relation_property"
  ∧ method_put self' request relation_id id s
    = Ran (ToManyRelationResource_put request relation_id id s)
  ∧ method_delete self' relation_id id s
    = Ran (ToManyRelationResource_delete relation_id id s).
Proof.
  unfold CollectionPropertyResource_init, ToManyRelationResource_init,
    BaseResource_init.
  destruct (set_strict serializer) as [e|ser]; [discriminate|].
  destruct (isinstance_ModelSerializer ser); [|discriminate].
  intros [= <-] [= <-]. repeat split.
Qed.

(** *** The resources on the concrete store *)

Section Examples.

Import Example.


(** Under parent 1: POST of a document with no 'id' inserts row 3 and
    answers 201; POST of the id of child 2 attaches that child, adds no
    row and answers 200; POST of an id that has no row answers 404. *)
Lemma post_attach_or_create_witness :
  related store !! IdInt 1 = Some (mkRelated false [IdInt 1])
  ∧ deleted store = []
  ∧ (∃ s', ToManyRelationResource_post
             (body {["name"%string := JStr "cy"]}) (IdInt 1) store
           = Ok (VTuple [VDict {["id"%string := JNum 3; "name"%string := JStr "cy"]};
                         VInt 201]) s'
         ∧ related s' = {[IdInt 1 := mkRelated false [IdInt 1; IdInt 3]]})
  ∧ (∃ s', ToManyRelationResource_post
             (body {["id"%string := JNum 2]}) (IdInt 1) store
           = Ok (VTuple [VDict bob; VInt 200]) s'
         ∧ rows s' = rows store
         ∧ related s' = {[IdInt 1 := mkRelated false [IdInt 1; IdInt 2]]}
         ∧ trace s' = [CollectionAppend (IdInt 1) (mkObj (Some (IdInt 2)) bob);
                       SessionCommit])
  ∧ ToManyRelationResource_post (body {["id"%string := JNum 7]}) (IdInt 1) store
    = Ok NOT_FOUND store.
Proof.
  assert (related store !! IdInt 1 = Some (mkRelated false [IdInt 1])) as H1
    by (vm_compute; reflexivity).
  split; [exact H1|]. split; [reflexivity|]. split; [|split].
  - destruct (post_attach_or_create (body {["name"%string := JStr "cy"]})
                (IdInt 1) _ store H1 eq_refl) as [_ Hcreate].
    destruct Hcreate as (_ & s' & Hpost & _ & Hrel & _); [vm_compute; reflexivity|].
    exists s'. split.
    + rewrite Hpost. vm_compute. reflexivity.
    + rewrite Hrel. vm_compute. reflexivity.
  - destruct (post_attach_or_create (body {["id"%string := JNum 2]})
                (IdInt 1) _ store H1 eq_refl) as [Hattach _].
    specialize (Hattach (JNum 2)).
    assert (identify (JNum 2) ≫= (λ k, pair k <$> rows store !! k)
            = Some (IdInt 2, bob)) as Hfound by (vm_compute; reflexivity).
    rewrite Hfound in Hattach.
    destruct Hattach as (s' & Hpost & Hrows & Hrel & Htr);
      [vm_compute; reflexivity | reflexivity |].
    exists s'. split; [exact Hpost|]. split; [exact Hrows|]. split.
    + rewrite Hrel. vm_compute. reflexivity.
    + rewrite Htr. reflexivity.
  - pose proof (post_attach_or_create (body {["id"%string := JNum 7]})
                  (IdInt 1) _ store H1 eq_refl) as [Hattach _].
    specialize (Hattach (JNum 7)).
    assert (identify (JNum 7) ≫= (λ k, pair k <$> rows store !! k) = None)
      as Hnone by (vm_compute; reflexivity).
    rewrite Hnone in Hattach. apply Hattach; [vm_compute; reflexivity | reflexivity].
Defined.


(** C2.  The store has parent 1 with child 1, and no child 0.  The
    lookup finds nothing for child id 0 under parent 1, so PUT and DELETE
    answer 404, and so does GET by key 0 on the [ModelResource]; GET by
    child id 0 under parent 1 does not: the id is false, the lookup is not
    made, and the answer is the listing of the relation. *)
Lemma get_falsy_child_id_lists :
  rows store !! IdInt 0 = None
  ∧ is_member store (IdInt 1) (IdInt 0) = false
  ∧ _query_related_obj (IdInt 1) (IdInt 0) store = Ok None store
  ∧ ToManyRelationResource_put no_body (IdInt 1) (IdInt 0) store
    = Ok NOT_FOUND store
  ∧ ToManyRelationResource_delete (IdInt 1) (IdInt 0) store
    = Ok NOT_FOUND store
  ∧ ModelResource_get no_body (Some (IdInt 0)) store = Ok NOT_FOUND store
  ∧ (∃ s', ToManyRelationResource_get no_body (IdInt 1) (Some (IdInt 0)) store
           = Ok (VList [VDict ann]) s')
  ∧ ToManyRelationResource_get no_body (IdInt 1) (Some (IdInt 0)) store
    ≠ Ok NOT_FOUND store.
Proof.
  do 6 (split; [vm_compute; reflexivity|]).
  split; [eexists; vm_compute; reflexivity|].
  vm_compute. discriminate.
Qed.

(** Child 2 exists but is no member of the relation of parent 1: GET, PUT
    and DELETE by its id answer 404. *)
Example unrelated_child_not_found :
  ToManyRelationResource_get no_body (IdInt 1) (Some (IdInt 2)) store
  = Ok NOT_FOUND store
  ∧ ToManyRelationResource_put no_body (IdInt 1) (IdInt 2) store
    = Ok NOT_FOUND store
  ∧ ToManyRelationResource_delete (IdInt 1) (IdInt 2) store
    = Ok NOT_FOUND store.
Proof. repeat split; vm_compute; reflexivity. Qed.

End Examples.

(** *** The further properties on the concrete store *)

Section MoreExamples.

Import Example.

(** A tuple of four values is sent whole as the body, with status 200. *)
Lemma unpack_other_tuple_witness :
  unpack (VTuple [VStr "a"; VInt 404; VDict ∅; VNone])
  = (VTuple [VStr "a"; VInt 404; VDict ∅; VNone], VInt 200, VDict ∅).
Proof. apply unpack_other_tuple; simpl; lia. Defined.

Lemma property_resource_put_delete_witness :
  ∃ self : Resource unit,
    CollectionPropertyResource_init tt "Child" "Parent" "children"
      (ModelSerializerInstance false) None = inr self
    ∧ method_put self no_body (IdInt 1) (IdInt 1) store
      = NoAttribute "_relation_property".
Proof.
  eexists. split; [reflexivity|].
  eapply (property_resource_put_delete tt "Child" "Parent" "children"
            (mkRelationProperty "Child" "Parent" "children")
            (ModelSerializerInstance false) None);
    reflexivity.
Defined.

Lemma ModelResource_post_creates_witness :
  deleted store = []
  ∧ referential store = true
  ∧ ∃ s', ModelResource_post (body {["name"%string := JStr "cy"]}) store
          = Ok (VTuple [VDict {["id"%string := JNum 3; "name"%string := JStr "cy"]};
                        VInt 201]) s'
        ∧ is_member s' (IdInt 1) (IdInt 3) = false.
Proof.
  assert (referential store = true) as Href by (vm_compute; reflexivity).
  split; [reflexivity|]. split; [exact Href|].
  destruct (ModelResource_post_creates (body {["name"%string := JStr "cy"]})
              store eq_refl Href) as (_ & s' & Hpost & _ & _ & Hmem & _).
  exists s'. split.
  - rewrite Hpost. vm_compute. reflexivity.
  - exact (Hmem (IdInt 1)).
Defined.

Lemma put_then_get_witness :
  rows store !! IdInt 2 = Some bob
  ∧ deleted store = []
  ∧ ∃ doc s',
      ModelResource_put (body {["age"%string := JNum 42]}) (IdInt 2) store
      = Ok (VDict doc) s'
      ∧ ModelResource_get no_body (Some (IdInt 2)) s' = Ok (VDict doc) s'.
Proof.
  assert (rows store !! IdInt 2 = Some bob) as H1 by (vm_compute; reflexivity).
  split; [exact H1|]. split; [reflexivity|].
  destruct (put_then_get (body {["age"%string := JNum 42]}) no_body
              (IdInt 2) bob store H1 eq_refl) as (doc & s' & Hput & Hget & _).
  by exists doc, s'.
Defined.

Lemma put_twice_witness :
  (∀ (d : Doc) (existing : Doc),
     @dump _ Replacing.replacing_serializer
       (@load _ Replacing.replacing_serializer d (Some existing)) = d)
  ∧ ∃ doc s1 s2,
      @ModelResource_put _ Replacing.replacing_serializer _
        (body {["age"%string := JNum 42]}) (IdInt 2) store = Ok (VDict doc) s1
      ∧ @ModelResource_put _ Replacing.replacing_serializer _
          (body {["age"%string := JNum 42]}) (IdInt 2) s1 = Ok (VDict doc) s2.
Proof.
  assert (∀ (d : Doc) (existing : Doc),
     @dump _ Replacing.replacing_serializer
       (@load _ Replacing.replacing_serializer d (Some existing)) = d) as Hlaw
    by reflexivity.
  split; [exact Hlaw|].
  destruct (@put_twice _ Replacing.replacing_serializer _
              (body {["age"%string := JNum 42]}) (IdInt 2) bob store Hlaw)
    as (doc & s1 & s2 & H1 & H2 & _); [vm_compute; reflexivity | reflexivity |].
  by exists doc, s1, s2.
Defined.

(** Deleting child 1 leaves child 2 and empties the relation of parent
    1. *)
Lemma ModelResource_delete_frame_witness :
  rows store !! IdInt 1 = Some ann
  ∧ deleted store = []
  ∧ ∃ s', ModelResource_delete (IdInt 1) store
          = Ok (VTuple [VStr ""; VInt 204]) s'
        ∧ rows s' !! IdInt 2 = Some bob
        ∧ related s' !! IdInt 1 = Some (mkRelated false []).
Proof.
  assert (rows store !! IdInt 1 = Some ann) as H1 by (vm_compute; reflexivity).
  split; [exact H1|]. split; [reflexivity|].
  destruct (ModelResource_delete_frame (IdInt 1) ann store H1 eq_refl)
    as (s' & Hdel & _ & Hframe & Hrel & _).
  exists s'. split; [exact Hdel|]. split.
  - rewrite Hframe by discriminate. vm_compute. reflexivity.
  - rewrite Hrel. vm_compute. reflexivity.
Defined.

Lemma ToManyRelationResource_delete_spec_witness :
  related store !! IdInt 1 = Some (mkRelated false [IdInt 1])
  ∧ rows store !! IdInt 1 = Some ann
  ∧ ∃ s', ToManyRelationResource_delete (IdInt 1) (IdInt 1) store
          = Ok (VTuple [VStr ""; VInt 204]) s'
        ∧ ToManyRelationResource_get no_body (IdInt 1) (Some (IdInt 1)) s'
          = Ok NOT_FOUND s'.
Proof.
  assert (related store !! IdInt 1 = Some (mkRelated false [IdInt 1])) as H1
    by (vm_compute; reflexivity).
  assert (rows store !! IdInt 1 = Some ann) as H2 by (vm_compute; reflexivity).
  split; [exact H1|]. split; [exact H2|].
  destruct (ToManyRelationResource_delete_spec no_body (IdInt 1) _ (IdInt 1) ann
              store H1) as (s' & Hdel & _ & _ & _ & _ & _ & Hget & _);
    [simpl; by left | exact H2 | reflexivity |].
  exists s'. split; [exact Hdel|]. by apply Hget.
Defined.

(** Child 2, which belongs to no parent, is attached to parent 1. *)
Lemma post_attach_then_get_witness :
  related store !! IdInt 1 = Some (mkRelated false [IdInt 1])
  ∧ rows store !! IdInt 2 = Some bob
  ∧ ∃ s', ToManyRelationResource_post (body {["id"%string := JNum 2]})
            (IdInt 1) store
          = Ok (VTuple [VDict bob; VInt 200]) s'
        ∧ ToManyRelationResource_get no_body (IdInt 1) (Some (IdInt 2)) s'
          = Ok (VTuple [VDict bob; VInt 200]) s'.
Proof.
  assert (related store !! IdInt 1 = Some (mkRelated false [IdInt 1])) as H1
    by (vm_compute; reflexivity).
  assert (rows store !! IdInt 2 = Some bob) as H2 by (vm_compute; reflexivity).
  split; [exact H1|]. split; [exact H2|].
  destruct (post_attach_then_get (body {["id"%string := JNum 2]}) no_body
              (IdInt 1) _ (JNum 2) (IdInt 2) bob store H1)
    as (s' & Hpost & _ & _ & Hget);
    [reflexivity | vm_compute; reflexivity | reflexivity | exact H2
     | reflexivity |].
  by exists s'.
Defined.

Lemma post_create_then_get_witness :
  related store !! IdInt 1 = Some (mkRelated false [IdInt 1])
  ∧ ∃ k doc s',
      ToManyRelationResource_post (body {["name"%string := JStr "cy"]})
        (IdInt 1) store
      = Ok (VTuple [VDict doc; VInt 201]) s'
      ∧ ToManyRelationResource_get no_body (IdInt 1) (Some k) s'
        = Ok (VTuple [VDict doc; VInt 200]) s'.
Proof.
  assert (related store !! IdInt 1 = Some (mkRelated false [IdInt 1])) as H1
    by (vm_compute; reflexivity).
  split; [exact H1|].
  destruct (post_create_then_get (body {["name"%string := JStr "cy"]}) no_body
              (IdInt 1) _ store H1)
    as (k & doc & s' & _ & Hpost & _ & _ & _ & Hget & _);
    [reflexivity | vm_compute; reflexivity |].
  by exists k, doc, s'.
Defined.

End MoreExamples.

(* ===================================================================== *)
(** ** Properties of the DateTime serializer *)
(* ===================================================================== *)

Module DateTimeFacts.

Import DateTimeSerializer.

(** *** Digits *)

Lemma is_digit_digit_char k : is_digit (digit_char k) = true.
Proof.
  destruct k as [|p|p]; try reflexivity.
  do 4 (try destruct p as [p|p|]); reflexivity.
Qed.

Lemma digit_value_digit_char k : 0 ≤ k < 10 → digit_value (digit_char k) = k.
Proof.
  intros Hk.
  assert (k = 0 ∨ k = 1 ∨ k = 2 ∨ k = 3 ∨ k = 4 ∨ k = 5 ∨ k = 6 ∨ k = 7
          ∨ k = 8 ∨ k = 9) as Hcases by lia.
  repeat destruct Hcases as [->|Hcases]; try reflexivity. by subst.
Qed.

Lemma digit_char_no_sign k :
  Ascii.eqb (digit_char k) "+" = false ∧ Ascii.eqb (digit_char k) "-" = false.
Proof.
  destruct k as [|p|p]; try (split; reflexivity).
  do 4 (try destruct p as [p|p|]); split; reflexivity.
Qed.

#[local] Arguments digit_char : simpl never.
#[local] Arguments is_digit : simpl never.

Lemma append_cons x (a b : string) : String x a +:+ b = String x (a +:+ b).
Proof. reflexivity. Qed.

Lemma append_nil_l (b : string) : "" +:+ b = b.
Proof. reflexivity. Qed.

Lemma append_assoc (a b c : string) : (a +:+ b) +:+ c = a +:+ (b +:+ c).
Proof.
  induction a as [|x a IH]; [done|]. rewrite !append_cons. by f_equal.
Qed.

Lemma append_nil_r (a : string) : a +:+ "" = a.
Proof. induction a as [|x a IH]; [done|]. rewrite append_cons. by f_equal. Qed.

Lemma length_append (a b : string) :
  String.length (a +:+ b) = (String.length a + String.length b)%nat.
Proof.
  induction a as [|x a IH]; [done|]. rewrite append_cons. simpl. by f_equal.
Qed.

Lemma length_zero_padded w n : String.length (zero_padded w n) = w.
Proof. induction w as [|w IH]; simpl; [done | by f_equal]. Qed.

(** Reading back what [zero_padded] printed. *)
Lemma take_digits_padded w k n rest :
  take_digits (w + k) (zero_padded w n +:+ rest)
  = (zero_padded w n +:+ (take_digits k rest).1, (take_digits k rest).2).
Proof.
  induction w as [|w IH].
  - rewrite !append_nil_l. cbn [Nat.add]. by destruct (take_digits k rest).
  - cbn [zero_padded Nat.add]. rewrite !append_cons. cbn [take_digits].
    by rewrite is_digit_digit_char, IH.
Qed.

Lemma digits_exact_padded w n rest :
  digits_exact w (zero_padded w n +:+ rest) = Some (zero_padded w n, rest).
Proof.
  unfold digits_exact. replace w with (w + 0)%nat at 1 by lia.
  rewrite take_digits_padded. simpl. rewrite append_nil_r, length_zero_padded.
  by rewrite Nat.eqb_refl.
Qed.

Lemma digits_2_4_padded n rest :
  digits_2_4 (zero_padded 4 n +:+ rest) = Some (zero_padded 4 n, rest).
Proof.
  unfold digits_2_4. change 4%nat with (4 + 0)%nat at 1.
  rewrite take_digits_padded. simpl take_digits. cbn [fst snd].
  by rewrite append_nil_r, length_zero_padded.
Qed.

Lemma digits_many_padded w n rest :
  (1 ≤ w)%nat →
  take_digits (String.length rest) rest = (EmptyString, rest) →
  digits_many (zero_padded w n +:+ rest) = Some (zero_padded w n, rest).
Proof.
  intros Hw Hrest. unfold digits_many.
  rewrite length_append, length_zero_padded, take_digits_padded, Hrest.
  cbn [fst snd]. rewrite append_nil_r, length_zero_padded.
  destruct w; [lia | done].
Qed.

Lemma int_digits_padded w n acc :
  int_digits acc (zero_padded w n)
  = Return (acc * 10 ^ Z.of_nat w + n mod 10 ^ Z.of_nat w).
Proof.
  revert acc. induction w as [|w IH]; intros acc.
  - simpl. f_equal. rewrite Z.mod_1_r. lia.
  - cbn [zero_padded int_digits]. rewrite is_digit_digit_char.
    rewrite digit_value_digit_char by (apply Z.mod_pos_bound; lia).
    rewrite IH. f_equal.
    rewrite Nat2Z.inj_succ, Z.pow_succ_r by lia.
    assert (0 < 10 ^ Z.of_nat w) as Hpos by (apply Z.pow_pos_nonneg; lia).
    rewrite (Z.mul_comm 10), Z.rem_mul_r by lia.
    ring.
Qed.

Lemma int_padded w n :
  (1 ≤ w)%nat → 0 ≤ n < 10 ^ Z.of_nat w → int (zero_padded w n) = Return n.
Proof.
  intros Hw Hn. destruct w as [|w]; [lia|].
  unfold int. cbn [zero_padded].
  destruct (digit_char_no_sign ((n / 10 ^ Z.of_nat w) mod 10)) as [-> ->].
  change (String ?c (zero_padded w n)) with (zero_padded (S w) n).
  rewrite int_digits_padded. f_equal. rewrite Z.mod_small; lia.
Qed.


(** *** The match on a dump *)

Lemma one_of_head cs c rest :
  existsb (Ascii.eqb c) cs = true → one_of cs (String c rest) = Some (c, rest).
Proof. unfold one_of. by intros ->. Qed.

Lemma literal_head c rest : literal c (String c rest) = Some rest.
Proof. unfold literal. by rewrite Ascii.eqb_refl. Qed.

Lemma literal_other c c' rest :
  Ascii.eqb c' c = false → literal c (String c' rest) = None.
Proof. unfold literal. by intros ->. Qed.

Lemma dump_shape Y m d H M S' f tz :
  dump (mkDatetime Y m d H M S' f tz)
  = zero_padded 4 Y +:+ "-" +:+ zero_padded 2 m +:+ "-" +:+ zero_padded 2 d
    +:+ "T" +:+ zero_padded 2 H +:+ ":" +:+ zero_padded 2 M +:+ ":"
    +:+ zero_padded 2 S'
    +:+ (if f =? 0 then "" else "." +:+ zero_padded 6 f) +:+ tail_text tz.
Proof.
  unfold dump, isoformat, tail_text. cbn [year month day hour minute second
    microsecond tzinfo]. by rewrite !append_assoc.
Qed.

(** The tail starts with a sign or with Z. *)
Lemma tail_text_head tz :
  ∃ c rest, tail_text tz = String c rest
            ∧ is_digit c = false ∧ Ascii.eqb c "." = false.
Proof.
  unfold tail_text, format_offset. destruct tz as [off|].
  - destruct (off <? 0); eexists _, _; (split; [reflexivity|]); split; reflexivity.
  - eexists _, _. split; [reflexivity|]. split; reflexivity.
Qed.

Lemma match_tz_tail tz : match_tz (tail_text tz) = Some (tz_text tz).
Proof.
  unfold tail_text, tz_text, format_offset. destruct tz as [off|]; [|reflexivity].
  cbv zeta. rewrite !append_assoc.
  unfold match_tz, match_offset.
  destruct (off <? 0); rewrite append_cons, append_nil_l;
    rewrite one_of_head by reflexivity; cbn [mbind option_bind];
    rewrite digits_exact_padded; cbn [mbind option_bind];
    rewrite append_cons, append_nil_l, literal_head; cbn [mbind option_bind];
    rewrite digits_exact_padded; reflexivity.
Qed.

Lemma match_fraction_tail tz :
  match_fraction (tail_text tz) = (None, tail_text tz).
Proof.
  destruct (tail_text_head tz) as (c & rest & -> & _ & Hdot).
  unfold match_fraction. by rewrite literal_other.
Qed.

Lemma take_digits_tail tz :
  take_digits (String.length (tail_text tz)) (tail_text tz)
  = (EmptyString, tail_text tz).
Proof.
  destruct (tail_text_head tz) as (c & rest & -> & Hdig & _).
  cbn [String.length take_digits]. by rewrite Hdig.
Qed.

Lemma match_dump Y m d H M S' f tz :
  DATETIME_RE_match (dump (mkDatetime Y m d H M S' f tz))
  = Some (mkGroups (zero_padded 4 Y) (zero_padded 2 m) (zero_padded 2 d)
            (zero_padded 2 H) (zero_padded 2 M) (Some (zero_padded 2 S'))
            (if f =? 0 then None else Some (zero_padded 6 f))
            (Some (tz_text tz))).
Proof.
  rewrite dump_shape. unfold DATETIME_RE_match.
  rewrite digits_2_4_padded. cbn [mbind option_bind].
  rewrite append_cons, append_nil_l, literal_head. cbn [mbind option_bind].
  rewrite digits_exact_padded. cbn [mbind option_bind].
  rewrite append_cons, append_nil_l, literal_head. cbn [mbind option_bind].
  rewrite digits_exact_padded. cbn [mbind option_bind].
  rewrite append_cons, append_nil_l, one_of_head by reflexivity.
  cbn [mbind option_bind].
  rewrite digits_exact_padded. cbn [mbind option_bind].
  rewrite append_cons, append_nil_l, literal_head. cbn [mbind option_bind].
  rewrite digits_exact_padded. cbn [mbind option_bind].
  unfold match_seconds.
  rewrite append_cons, append_nil_l, literal_head. cbn [mbind option_bind].
  rewrite digits_exact_padded.
  destruct (f =? 0).
  - rewrite append_nil_l, match_fraction_tail, match_tz_tail. reflexivity.
  - unfold match_fraction.
    rewrite append_assoc, append_cons, append_nil_l, literal_head.
    cbn [mbind option_bind].
    rewrite digits_many_padded by (lia || apply take_digits_tail).
    rewrite match_tz_tail. reflexivity.
Qed.

(** *** Reading the offset *)

Lemma zero_padded_2 n :
  zero_padded 2 n
  = String (digit_char ((n / 10 ^ 1) mod 10))
      (String (digit_char ((n / 10 ^ 0) mod 10)) "").
Proof. reflexivity. Qed.

Lemma int_signed (negative : bool) w n :
  (1 ≤ w)%nat → 0 ≤ n < 10 ^ Z.of_nat w →
  int (String (if negative then "-" else "+")%char (zero_padded w n))
  = Return (if negative then - n else n).
Proof.
  intros Hw Hn. destruct w as [|w]; [lia|].
  assert (int_digits 0 (zero_padded (S w) n) = Return n) as Hd.
  { rewrite int_digits_padded. f_equal. rewrite Z.mod_small; lia. }
  destruct negative; unfold int; cbn [zero_padded] in *;
    (replace (Ascii.eqb _ "+") with false by reflexivity) || 
    (replace (Ascii.eqb _ "+") with true by reflexivity);
    try (replace (Ascii.eqb "-" "-") with true by reflexivity);
    cbv iota; by rewrite Hd.
Qed.

Lemma offset_text_slices (c : ascii) hh mm :
  let text := String c (zero_padded 2 hh +:+ ":" +:+ zero_padded 2 mm) in
  substring 0 3 text = String c (zero_padded 2 hh)
  ∧ substring (String.length text - 2) 2 text = zero_padded 2 mm.
Proof. split; reflexivity. Qed.

(** What [_parse_tzinfo] makes of a sign, two digits of hours, a colon and
    two digits of minutes. *)
Lemma parse_offset_text (negative : bool) hh mm :
  0 ≤ hh < 100 → 0 ≤ mm < 100 →
  _parse_tzinfo
    (Some ((if negative then "-" else "+")
           +:+ zero_padded 2 hh +:+ ":" +:+ zero_padded 2 mm))
  = if negative
    then timezone (- hh) (if hh =? 0 then - mm else mm)
    else timezone hh mm.
Proof.
  intros Hhh Hmm.
  set (c := (if negative then "-" else "+")%char).
  replace ((if negative then "-" else "+")
           +:+ zero_padded 2 hh +:+ ":" +:+ zero_padded 2 mm)
    with (String c (zero_padded 2 hh +:+ ":" +:+ zero_padded 2 mm))
    by (by destruct negative).
  destruct (offset_text_slices c hh mm) as [H3 H2]. cbv zeta in H3, H2.
  unfold _parse_tzinfo. rewrite H3, H2.
  replace (String.eqb (upper _) "Z") with false by (by destruct negative).
  subst c. rewrite int_signed by (simpl; lia).
  cbn [mbind outcome_bind]. rewrite int_padded by (simpl; lia).
  cbn [mbind outcome_bind].
  destruct negative.
  - replace (Ascii.eqb "-" "-") with true by reflexivity. cbn [andb].
    replace (- hh =? 0) with (hh =? 0); [reflexivity|].
    destruct (Z.eqb_spec hh 0), (Z.eqb_spec (- hh) 0); lia || reflexivity.
  - replace (Ascii.eqb "+" "-") with false by reflexivity. reflexivity.
Qed.

(** *** Loading a dump *)

Lemma days_in_month_le y m : days_in_month y m ≤ 31.
Proof.
  unfold days_in_month.
  destruct (m =? 2); [destruct (is_leap y); lia|].
  destruct ((m =? 4) || (m =? 6) || (m =? 9) || (m =? 11)); lia.
Qed.

Lemma fields_ok_bounds d :
  fields_ok d = true →
  0 ≤ year d < 10 ^ 4 ∧ 0 ≤ month d < 10 ^ 2 ∧ 0 ≤ day d < 10 ^ 2
  ∧ 0 ≤ hour d < 10 ^ 2 ∧ 0 ≤ minute d < 10 ^ 2 ∧ 0 ≤ second d < 10 ^ 2
  ∧ 0 ≤ microsecond d < 10 ^ 6.
Proof.
  unfold fields_ok. rewrite !andb_true_iff, !Z.leb_le.
  pose proof (days_in_month_le (year d) (month d)). lia.
Qed.

(** Every field of a dump is read back; the offset is whatever
    [_parse_tzinfo] makes of the tz group. *)
Lemma load_dump_fields d :
  fields_ok d = true →
  load (dump d)
  = tz ← _parse_tzinfo (Some (tz_text (tzinfo d))); Return (replace_tzinfo d tz).
Proof.
  intros Hok. pose proof (fields_ok_bounds d Hok) as (HY & Hm & Hd & HH & HM & HS & Hf).
  destruct d as [Y m d H M S' f tz]. cbn [year month day hour minute second
    microsecond tzinfo] in *.
  unfold load. rewrite match_dump.
  cbn [g_Y g_m g_d g_H g_M g_S g_f g_tz].
  rewrite (int_padded 4), !(int_padded 2) by (simpl; lia).
  cbn [mbind outcome_bind].
  assert (int_or_0 (Some (zero_padded 2 S')) = Return S') as ->.
  { rewrite <- (int_padded 2 S') by (simpl; lia). reflexivity. }
  cbn [mbind outcome_bind].
  assert (int_or_0 (if f =? 0 then None else Some (zero_padded 6 f)) = Return f)
    as ->.
  { destruct (Z.eqb_spec f 0) as [->|Hne]; [reflexivity|].
    rewrite <- (int_padded 6 f) by (simpl; lia). reflexivity. }
  cbn [mbind outcome_bind].
  destruct (_parse_tzinfo (Some (tz_text tz))) as [tz'|msg]; [|reflexivity].
  cbn [mbind outcome_bind]. unfold datetime_new, replace_tzinfo.
  cbn [year month day hour minute second microsecond].
  replace (fields_ok (mkDatetime Y m d H M S' f tz'))
    with (fields_ok (mkDatetime Y m d H M S' f tz)) by reflexivity.
  by rewrite Hok.
Qed.

Lemma parse_tz_text_aware off :
  offset_ok off = true →
  _parse_tzinfo (Some (tz_text (Some off))) = Return (Some (parsed_offset off)).
Proof.
  unfold offset_ok. rewrite andb_true_iff, !Z.ltb_lt. intros [Hlo Hhi].
  unfold tz_text.
  rewrite parse_offset_text by (split; Z.div_mod_to_equations; lia).
  unfold parsed_offset, timezone. cbv zeta.
  destruct (Z.ltb_spec off 0) as [Hneg|Hpos].
  - destruct (Z.eqb_spec (Z.abs off / 3600) 0) as [Hz|Hnz];
      match goal with |- (if offset_ok ?o then _ else _) = _ =>
        replace (offset_ok o) with true; [reflexivity|] end;
      symmetry; unfold offset_ok; rewrite andb_true_iff, !Z.ltb_lt;
      Z.div_mod_to_equations; lia.
  - match goal with |- (if offset_ok ?o then _ else _) = _ =>
      replace (offset_ok o) with true; [reflexivity|] end.
    symmetry. unfold offset_ok. rewrite andb_true_iff, !Z.ltb_lt.
    Z.div_mod_to_equations. lia.
Qed.

Lemma parsed_offset_exact off :
  off mod 60 = 0 → 0 ≤ off ∨ off mod 3600 = 0 ∨ -3600 < off →
  parsed_offset off = off.
Proof.
  intros Hmin Hcase. unfold parsed_offset. cbv zeta.
  destruct (Z.ltb_spec off 0) as [Hneg|Hpos].
  - destruct (Z.eqb_spec (Z.abs off / 3600) 0) as [Hz|Hnz];
      Z.div_mod_to_equations; lia.
  - Z.div_mod_to_equations. lia.
Qed.

(** *** Round trip *)

(** Equal values are equal to Python too. *)
Lemma datetime_eq_refl d : datetime_eq d d = true.
Proof. unfold datetime_eq. destruct (tzinfo d); apply Z.eqb_refl. Qed.

(** C4 (amended).  For every aware value, of a fixed [timezone] or of a
    zone, whose offset does not depend on [fold] and is a whole number of
    minutes that is not negative, or is a whole number of hours, or is
    less than an hour, [load(dump(d))] has the fields and the offset of
    [d] and is equal to [d]; for a naive [d] it is [d] made aware at UTC;
    and the two texts of the specification load to the offsets +5:30 and
    UTC. *)
Theorem load_dump_roundtrip :
  (∀ v off,
     valid_zoned v = true → tzinfo (shown v) = Some off →
     offset_depends_on_fold v = false →
     off mod 60 = 0 → 0 ≤ off ∨ off mod 3600 = 0 ∨ -3600 < off →
     load (dump_zoned v) = Return (shown v)
     ∧ loaded_eq (shown v) v = true)
  ∧ (∀ v,
       valid_zoned v = true → tzinfo (shown v) = None →
       load (dump_zoned v) = Return (replace_tzinfo (shown v) (Some 0)))
  ∧ load "2020-01-01T10:00:00+05:30"
    = Return (mkDatetime 2020 1 1 10 0 0 0 (Some (5 * 3600 + 30 * 60)))
  ∧ load "2020-01-01T10:00:00Z" = Return (mkDatetime 2020 1 1 10 0 0 0 (Some 0)).
Proof.
  split; [|split; [|split; reflexivity]].
  - intros v off Hvalid Htz Hfold Hmin Hcase.
    unfold valid_zoned, valid in Hvalid. rewrite Htz in Hvalid.
    apply andb_true_iff in Hvalid as [[Hok Hoff]%andb_true_iff _].
    unfold dump_zoned. split.
    + rewrite load_dump_fields, Htz, parse_tz_text_aware by done.
      cbn [mbind outcome_bind]. rewrite parsed_offset_exact by done.
      destruct (shown v). simpl in Htz. by subst.
    + unfold loaded_eq. rewrite Htz, Hfold. apply datetime_eq_refl.
  - intros v Hvalid Htz.
    unfold valid_zoned, valid in Hvalid.
    apply andb_true_iff in Hvalid as [[Hok _]%andb_true_iff _].
    unfold dump_zoned. rewrite load_dump_fields, Htz by done. reflexivity.
Qed.

(** The round trip at an aware value with a fraction and offset +5:30,
    of a zone, taken at the second of the two occurrences of its wall
    time. *)
Lemma load_dump_roundtrip_witness :
  let v := mkZoned (mkDatetime 2021 12 31 23 59 58 250000 (Some 19800))
                   true false in
  valid_zoned v = true
  ∧ load (dump_zoned v) = Return (shown v)
  ∧ loaded_eq (shown v) v = true.
Proof.
  intros v. split; [reflexivity|].
  apply (proj1 load_dump_roundtrip v 19800); [reflexivity..|lia].
Defined.

(** A value whose offset depends on [fold] is equal to nothing that
    [load] returns, whatever its offset. *)
Lemma fold_dependent_unequal loaded v :
  valid_zoned v = true → offset_depends_on_fold v = true →
  loaded_eq loaded v = false.
Proof.
  intros Hvalid Hfold. unfold valid_zoned in Hvalid. rewrite Hfold in Hvalid.
  apply andb_true_iff in Hvalid as [_ Haware]. cbn [negb orb] in Haware.
  unfold loaded_eq. rewrite Hfold.
  destruct (tzinfo (shown v)); [|discriminate]. by destruct (tzinfo loaded).
Qed.

(** So the value of a zone at 01:30 on the night the clocks go back, at
    offset -4:00, comes back with its fields and that offset and is still
    not equal. *)
Lemma zone_roundtrip_unequal :
  let v := mkZoned (mkDatetime 2020 11 1 1 30 0 0 (Some (- (4 * 3600))))
                   false true in
  valid_zoned v = true
  ∧ load (dump_zoned v) = Return (shown v)
  ∧ loaded_eq (shown v) v = false.
Proof. cbv zeta. repeat split; reflexivity. Qed.

(** A naive value does not come back: the dump ends in Z whatever the
    value, and the text loads as a value aware at UTC, which is not equal
    to a naive one. *)
Lemma naive_roundtrip_fails :
  let d := mkDatetime 2020 1 1 10 0 0 0 None in
  valid d = true
  ∧ dump d = "2020-01-01T10:00:00Z"%string
  ∧ load (dump d) = Return (mkDatetime 2020 1 1 10 0 0 0 (Some 0))
  ∧ load (dump d) ≠ Return d
  ∧ datetime_eq (mkDatetime 2020 1 1 10 0 0 0 (Some 0)) d = false.
Proof.
  cbv zeta. split; [reflexivity|]. split; [reflexivity|].
  split; [reflexivity|]. split; [|reflexivity].
  vm_compute. discriminate.
Qed.

(** An offset of -5:30 does not come back either: the hours are read as
    -5 and the minutes as +30. *)
Lemma negative_offset_minutes :
  let d := mkDatetime 2020 1 1 10 0 0 0 (Some (- (5 * 3600 + 30 * 60))) in
  valid d = true
  ∧ dump d = "2020-01-01T10:00:00-05:30Z"%string
  ∧ load (dump d)
    = Return (mkDatetime 2020 1 1 10 0 0 0 (Some (- (5 * 3600) + 30 * 60)))
  ∧ datetime_eq
      (mkDatetime 2020 1 1 10 0 0 0 (Some (- (5 * 3600) + 30 * 60))) d = false.
Proof. cbv zeta. repeat split; reflexivity. Qed.

(** Seconds of an offset are not read. *)
Lemma offset_seconds_dropped :
  let d := mkDatetime 2020 1 1 10 0 0 0 (Some 19815) in
  valid d = true
  ∧ dump d = "2020-01-01T10:00:00+05:30:15Z"%string
  ∧ load (dump d) = Return (mkDatetime 2020 1 1 10 0 0 0 (Some 19800)).
Proof. cbv zeta. repeat split; reflexivity. Qed.

(** A text that does not start as the pattern asks is refused. *)
Example load_malformed :
  load "10:00:00"
  = ValueError "Could not parse DateTime: '10:00:00'".
Proof. reflexivity. Qed.

(** *** What [load] returns *)

(** The empty text, and a text whose first character is an ASCII
    character other than a digit, are refused with the error that quotes
    the text. *)
Theorem load_refuses (serialized : string) :
  match serialized with
  | String c _ => is_digit c = false ∧ (nat_of_ascii c < 128)%nat
  | EmptyString => True
  end →
  load serialized
  = ValueError ("Could not parse DateTime: '" +:+ serialized +:+ "'").
Proof.
  intros Hhead. unfold load.
  assert (DATETIME_RE_match serialized = None) as ->; [|done].
  unfold DATETIME_RE_match, digits_2_4.
  destruct serialized as [|c rest]; [done|].
  destruct Hhead as [Hhead _]. cbn [take_digits]. by rewrite Hhead.
Qed.

Lemma parsed_offset_minutes off : parsed_offset off mod 60 = 0.
Proof.
  unfold parsed_offset. cbv zeta.
  destruct (off <? 0); [destruct (_ =? 0)|]; Z.div_mod_to_equations; lia.
Qed.

(** The dump of any value that exists loads without error, to a value
    with the same date and time fields that is always aware: at UTC when
    the dumped value was naive, and otherwise at an offset of whole
    minutes made of the hours and minutes the dump printed. *)
Theorem load_dump_total d :
  valid d = true →
  ∃ off',
    load (dump d) = Return (replace_tzinfo d (Some off'))
    ∧ off' mod 60 = 0
    ∧ match tzinfo d with
      | None => off' = 0
      | Some off => off' = parsed_offset off
      end.
Proof.
  unfold valid. intros [Hok Hoff]%andb_true_iff.
  rewrite load_dump_fields by done.
  destruct (tzinfo d) as [off|].
  - rewrite parse_tz_text_aware by done. cbn [mbind outcome_bind].
    exists (parsed_offset off). split; [done|]. split; [|done].
    apply parsed_offset_minutes.
  - exists 0. by repeat split.
Qed.

Lemma field_microseconds_replace d tz :
  field_microseconds (replace_tzinfo d tz) = field_microseconds d.
Proof. reflexivity. Qed.

(** A negative offset of at least an hour with minutes that are not zero
    does not survive: for an offset of -(hh:mm) the hours are read as -hh
    and the minutes as +mm, so that the loaded value is at offset
    -hh:00 plus mm minutes and is not equal to the dumped one. *)
Theorem negative_offset_misread d hh mm :
  valid d = true →
  1 ≤ hh → 1 ≤ mm ≤ 59 →
  tzinfo d = Some (- (hh * 3600 + mm * 60)) →
  let loaded := replace_tzinfo d (Some (- (hh * 3600) + mm * 60)) in
  load (dump d) = Return loaded
  ∧ load (dump d) ≠ Return d
  ∧ datetime_eq loaded d = false.
Proof.
  intros Hvalid Hhh Hmm Htz loaded.
  assert (offset_ok (- (hh * 3600 + mm * 60)) = true) as Hoff.
  { unfold valid in Hvalid. rewrite Htz in Hvalid.
    by apply andb_true_iff in Hvalid as [_ ?]. }
  assert (parsed_offset (- (hh * 3600 + mm * 60)) = - (hh * 3600) + mm * 60)
    as Hparsed.
  { unfold parsed_offset. cbv zeta.
    destruct (Z.ltb_spec (- (hh * 3600 + mm * 60)) 0); [|lia].
    destruct (Z.eqb_spec (Z.abs (- (hh * 3600 + mm * 60)) / 3600) 0);
      Z.div_mod_to_equations; lia. }
  assert (load (dump d) = Return loaded) as Hload.
  { unfold valid in Hvalid. apply andb_true_iff in Hvalid as [Hok _].
    rewrite load_dump_fields, Htz, parse_tz_text_aware, Hparsed by done.
    reflexivity. }
  split; [done|]. split.
  - rewrite Hload. intros [= Heq]. apply (f_equal tzinfo) in Heq.
    rewrite Htz in Heq. simpl in Heq. injection Heq. lia.
  - unfold datetime_eq. subst loaded. rewrite Htz. cbn [tzinfo replace_tzinfo].
    rewrite field_microseconds_replace. apply Z.eqb_neq. lia.
Qed.

(** *** Texts other than dumps *)

Lemma take_digits_nondigit k c rest :
  is_digit c = false → take_digits k (String c rest) = (EmptyString, String c rest).
Proof. intros Hc. destruct k; [done|]. cbn [take_digits]. by rewrite Hc. Qed.

Lemma digits_2_4_year w n rest :
  (2 ≤ w ≤ 4)%nat →
  digits_2_4 (zero_padded w n +:+ "-" +:+ rest)
  = Some (zero_padded w n, "-" +:+ rest).
Proof.
  intros Hw. unfold digits_2_4.
  replace 4%nat with (w + (4 - w))%nat at 1 by lia.
  rewrite take_digits_padded, append_cons, append_nil_l.
  rewrite take_digits_nondigit by reflexivity. cbn [fst snd].
  rewrite append_nil_r, length_zero_padded.
  destruct (Nat.leb_spec 2 w); [done | lia].
Qed.

(** The match on a text that starts with a date, a separator, hours and
    minutes: the optional groups are whatever the three optional pieces of
    the pattern take from the rest. *)
Lemma match_prefix w Y m d (sep : ascii) H M rest :
  (2 ≤ w ≤ 4)%nat → existsb (Ascii.eqb sep) ["T"; " "]%char = true →
  DATETIME_RE_match
    (zero_padded w Y +:+ "-" +:+ zero_padded 2 m +:+ "-" +:+ zero_padded 2 d
     +:+ String sep (zero_padded 2 H +:+ ":" +:+ zero_padded 2 M +:+ rest))
  = Some (mkGroups (zero_padded w Y) (zero_padded 2 m) (zero_padded 2 d)
            (zero_padded 2 H) (zero_padded 2 M)
            (match_seconds rest).1
            (match_fraction (match_seconds rest).2).1
            (match_tz (match_fraction (match_seconds rest).2).2)).
Proof.
  intros Hw Hsep. unfold DATETIME_RE_match.
  rewrite digits_2_4_year by done. cbn [mbind option_bind].
  rewrite append_cons, append_nil_l, literal_head. cbn [mbind option_bind].
  rewrite digits_exact_padded. cbn [mbind option_bind].
  rewrite append_cons, append_nil_l, literal_head. cbn [mbind option_bind].
  rewrite digits_exact_padded. cbn [mbind option_bind].
  rewrite one_of_head by done. cbn [mbind option_bind].
  rewrite digits_exact_padded. cbn [mbind option_bind].
  rewrite append_cons, append_nil_l, literal_head. cbn [mbind option_bind].
  rewrite digits_exact_padded. cbn [mbind option_bind].
  destruct (match_seconds rest) as [S' r1]. cbn [fst snd].
  by destruct (match_fraction r1) as [f r2].
Qed.

Lemma match_seconds_padded n rest :
  match_seconds (":" +:+ zero_padded 2 n +:+ rest) = (Some (zero_padded 2 n), rest).
Proof.
  unfold match_seconds.
  rewrite append_cons, append_nil_l, literal_head. cbn [mbind option_bind].
  by rewrite digits_exact_padded.
Qed.

Lemma match_fraction_padded w n rest :
  (1 ≤ w)%nat →
  take_digits (String.length rest) rest = (EmptyString, rest) →
  match_fraction ("." +:+ zero_padded w n +:+ rest) = (Some (zero_padded w n), rest).
Proof.
  intros Hw Hrest. unfold match_fraction.
  rewrite append_cons, append_nil_l, literal_head. cbn [mbind option_bind].
  by rewrite digits_many_padded.
Qed.

(** The range checks on the fields read from a text. *)
Lemma load_groups (serialized : string) w Y m d H M S' f
    (gS gf gtz : option string) tz :
  DATETIME_RE_match serialized
  = Some (mkGroups (zero_padded w Y) (zero_padded 2 m) (zero_padded 2 d)
            (zero_padded 2 H) (zero_padded 2 M) gS gf gtz) →
  (1 ≤ w)%nat → 0 ≤ Y < 10 ^ Z.of_nat w →
  int_or_0 gS = Return S' → int_or_0 gf = Return f →
  _parse_tzinfo gtz = Return tz →
  fields_ok (mkDatetime Y m d H M S' f tz) = true →
  load serialized = Return (mkDatetime Y m d H M S' f tz).
Proof.
  intros Hmatch Hw HY HS Hf Htz Hok.
  pose proof (fields_ok_bounds _ Hok) as (_ & Hm & Hd & HH & HM & _).
  cbn [year month day hour minute second microsecond] in *.
  unfold load. rewrite Hmatch. cbn [g_Y g_m g_d g_H g_M g_S g_f g_tz].
  rewrite (int_padded w), !(int_padded 2) by (simpl; lia).
  cbn [mbind outcome_bind]. rewrite HS. cbn [mbind outcome_bind].
  rewrite Hf. cbn [mbind outcome_bind]. rewrite Htz. cbn [mbind outcome_bind].
  unfold datetime_new. by rewrite Hok.
Qed.

(** A text with no seconds, no fraction and no offset, with a year of two
    to four digits and a T or a space before the time, loads as the naive
    value of these fields with 0 seconds. *)
Theorem load_short_text w Y m d (sep : ascii) H M :
  (2 ≤ w ≤ 4)%nat → 0 ≤ Y < 10 ^ Z.of_nat w →
  sep = "T"%char ∨ sep = " "%char →
  fields_ok (mkDatetime Y m d H M 0 0 None) = true →
  load (zero_padded w Y +:+ "-" +:+ zero_padded 2 m +:+ "-" +:+ zero_padded 2 d
        +:+ String sep (zero_padded 2 H +:+ ":" +:+ zero_padded 2 M))
  = Return (mkDatetime Y m d H M 0 0 None).
Proof.
  intros Hw HY Hsep Hok.
  rewrite <- (append_nil_r (zero_padded 2 M)).
  eapply load_groups; [apply match_prefix| | | | | |]; try done; try lia.
  by destruct Hsep as [-> | ->].
Qed.

(** The digits after the point are read as a whole number of
    microseconds, however many they are: one digit 5 is 5 microseconds,
    not half a second. *)
Theorem load_fraction_digits w Y m d H M S' f :
  (1 ≤ w)%nat → 0 ≤ f < 10 ^ Z.of_nat w →
  fields_ok (mkDatetime Y m d H M S' f None) = true →
  load (zero_padded 4 Y +:+ "-" +:+ zero_padded 2 m +:+ "-" +:+ zero_padded 2 d
        +:+ String "T" (zero_padded 2 H +:+ ":" +:+ zero_padded 2 M
        +:+ ":" +:+ zero_padded 2 S' +:+ "." +:+ zero_padded w f))
  = Return (mkDatetime Y m d H M S' f None).
Proof.
  intros Hw Hf Hok.
  pose proof (fields_ok_bounds _ Hok) as (HY & _ & _ & _ & _ & HS & _).
  cbn [year second] in *.
  rewrite <- (append_nil_r (zero_padded w f)).
  eapply load_groups; [apply match_prefix; [lia | done]| | | | | |];
    rewrite ?match_seconds_padded; cbn [fst snd];
    rewrite ?match_fraction_padded by done; cbn [fst snd]; try done; try lia.
  - rewrite <- (int_padded 2 S') by (simpl; lia). reflexivity.
  - rewrite <- (int_padded w f) by done.
    destruct w; [lia|]. reflexivity.
Qed.

(** *** What follows the offset, and the colon in it *)

Lemma tail_junk_head tz junk :
  ∃ c rest, tail_text tz +:+ junk = String c rest
            ∧ is_digit c = false ∧ Ascii.eqb c "." = false.
Proof.
  destruct (tail_text_head tz) as (c & rest & -> & Hd & Hp).
  exists c, (rest +:+ junk). by rewrite append_cons.
Qed.

Lemma match_tz_tail_junk tz junk :
  match_tz (tail_text tz +:+ junk) = Some (tz_text tz).
Proof.
  unfold tail_text, tz_text, format_offset. destruct tz as [off|]; [|reflexivity].
  cbv zeta. rewrite !append_assoc.
  unfold match_tz, match_offset.
  destruct (off <? 0); rewrite append_cons, append_nil_l;
    rewrite one_of_head by reflexivity; cbn [mbind option_bind];
    rewrite digits_exact_padded; cbn [mbind option_bind];
    rewrite append_cons, append_nil_l, literal_head; cbn [mbind option_bind];
    rewrite digits_exact_padded; reflexivity.
Qed.

Lemma match_dump_junk d junk :
  DATETIME_RE_match (dump d +:+ junk) = DATETIME_RE_match (dump d).
Proof.
  destruct d as [Y m d H M S' f tz]. rewrite match_dump, dump_shape.
  rewrite !append_assoc.
  etrans; [apply (match_prefix 4 Y m d "T"); [lia | reflexivity]|].
  rewrite match_seconds_padded. cbn [fst snd].
  destruct (tail_junk_head tz junk) as (c & rest & Htail & Hdig & Hdot).
  destruct (f =? 0).
  - rewrite append_nil_l.
    assert (match_fraction (tail_text tz +:+ junk) = (None, tail_text tz +:+ junk))
      as -> by (unfold match_fraction; by rewrite Htail, literal_other).
    cbn [fst snd]. by rewrite match_tz_tail_junk.
  - rewrite append_assoc, match_fraction_padded.
    + cbn [fst snd]. by rewrite match_tz_tail_junk.
    + lia.
    + rewrite Htail. by apply take_digits_nondigit.
Qed.

(** Whatever follows a dump is ignored: the pattern is matched at the
    start of the text and nothing asks for the text to end. *)
Theorem load_ignores_rest d (junk : string) :
  load (dump d +:+ junk) = load (dump d).
Proof.
  unfold load. rewrite match_dump_junk.
  destruct d as [Y m d H M S' f tz]. by rewrite match_dump.
Qed.

Lemma offset_text_slices_no_colon (c : ascii) hh mm :
  let text := String c (zero_padded 2 hh +:+ zero_padded 2 mm) in
  substring 0 3 text = String c (zero_padded 2 hh)
  ∧ substring (String.length text - 2) 2 text = zero_padded 2 mm.
Proof. split; reflexivity. Qed.

Lemma match_offset_forms (c : ascii) hh mm :
  existsb (Ascii.eqb c) ["+"; "-"]%char = true →
  match_tz (String c (zero_padded 2 hh +:+ ":" +:+ zero_padded 2 mm))
  = Some (String c (zero_padded 2 hh +:+ ":" +:+ zero_padded 2 mm))
  ∧ match_tz (String c (zero_padded 2 hh +:+ zero_padded 2 mm))
    = Some (String c (zero_padded 2 hh +:+ zero_padded 2 mm)).
Proof.
  intros Hc. unfold match_tz, match_offset. split.
  - rewrite (one_of_head ["+"; "-"]%char) by done. cbn [mbind option_bind].
    rewrite digits_exact_padded. cbn [mbind option_bind].
    rewrite append_cons, append_nil_l, literal_head. cbn [mbind option_bind].
    rewrite <- (append_nil_r (zero_padded 2 mm)) at 1.
    rewrite digits_exact_padded. by rewrite append_cons.
  - rewrite (one_of_head ["+"; "-"]%char) by done. cbn [mbind option_bind].
    rewrite digits_exact_padded. cbn [mbind option_bind].
    assert (literal ":" (zero_padded 2 mm) = None) as Hlit.
    { rewrite zero_padded_2. apply literal_other.
      destruct ((mm / 10 ^ 1) mod 10) as [|p|p]; try reflexivity.
      do 4 (try destruct p as [p|p|]); reflexivity. }
    rewrite Hlit. cbn [mbind option_bind].
    rewrite <- (append_nil_r (zero_padded 2 mm)) at 1.
    rewrite digits_exact_padded. cbn [mbind option_bind].
    by rewrite append_cons.
Qed.

(** The colon of an offset is optional: a text that ends in a sign and
    four digits loads as the text with a colon between the hours and the
    minutes does. *)
Theorem load_offset_without_colon Y m d H M S' (negative : bool) hh mm :
  let sign := (if negative then "-" else "+")%char in
  let prefix rest :=
    zero_padded 4 Y +:+ "-" +:+ zero_padded 2 m +:+ "-" +:+ zero_padded 2 d
    +:+ String "T" (zero_padded 2 H +:+ ":" +:+ zero_padded 2 M
    +:+ ":" +:+ zero_padded 2 S' +:+ rest) in
  load (prefix (String sign (zero_padded 2 hh +:+ zero_padded 2 mm)))
  = load (prefix (String sign (zero_padded 2 hh +:+ ":" +:+ zero_padded 2 mm))).
Proof.
  intros sign prefix.
  assert (existsb (Ascii.eqb sign) ["+"; "-"]%char = true) as Hsign
    by (by destruct negative).
  destruct (match_offset_forms sign hh mm Hsign) as [Hcolon Hplain].
  assert (∀ rest, match_fraction (String sign rest) = (None, String sign rest))
    as Hfrac.
  { intros rest. unfold match_fraction. rewrite literal_other; [done|].
    by destruct negative. }
  unfold load, prefix.
  rewrite !match_prefix by (lia || reflexivity).
  rewrite !match_seconds_padded. cbn [fst snd]. rewrite !Hfrac. cbn [fst snd].
  rewrite Hcolon, Hplain. cbn [g_Y g_m g_d g_H g_M g_S g_f g_tz].
  assert (_parse_tzinfo (Some (String sign (zero_padded 2 hh +:+ zero_padded 2 mm)))
          = _parse_tzinfo
              (Some (String sign (zero_padded 2 hh +:+ ":" +:+ zero_padded 2 mm))))
    as ->; [|done].
  destruct (offset_text_slices sign hh mm) as [H3 H2].
  destruct (offset_text_slices_no_colon sign hh mm) as [H3' H2'].
  cbv zeta in H3, H2, H3', H2'.
  unfold _parse_tzinfo. rewrite H3, H2, H3', H2'.
  replace (String.eqb (upper (String sign (zero_padded 2 hh +:+ zero_padded 2 mm)))
             "Z") with false by (by destruct negative).
  replace (String.eqb
             (upper (String sign (zero_padded 2 hh +:+ ":" +:+ zero_padded 2 mm)))
             "Z") with false by (by destruct negative).
  done.
Qed.

(** Only the total of an offset is checked: for a sign, two digits of
    hours and two of minutes, the offset is hours and minutes added up
    (minutes above 59 included), with the minutes counted against the
    sign only under a minus sign with hours 00, and it is accepted
    exactly when the total lies strictly between -24 and 24 hours. *)
Theorem parse_offset_checked (negative : bool) hh mm :
  0 ≤ hh < 100 → 0 ≤ mm < 100 →
  let total :=
    if negative then - hh * 3600 + (if hh =? 0 then - mm else mm) * 60
    else hh * 3600 + mm * 60 in
  _parse_tzinfo
    (Some ((if negative then "-" else "+")
           +:+ zero_padded 2 hh +:+ ":" +:+ zero_padded 2 mm))
  = if (-86400 <? total) && (total <? 86400) then Return (Some total)
    else ValueError "offset must be a timedelta strictly between -24 and 24 hours".
Proof.
  intros Hhh Hmm total. rewrite parse_offset_text by done.
  subst total. unfold timezone, offset_ok. by destruct negative.
Qed.

(** *** The further properties at concrete values *)

Lemma load_refuses_witness :
  load "T10:00" = ValueError "Could not parse DateTime: 'T10:00'"
  ∧ load "" = ValueError "Could not parse DateTime: ''".
Proof.
  split.
  - apply (load_refuses "T10:00").
    split; [reflexivity | apply Nat.ltb_lt; reflexivity].
  - apply (load_refuses ""). exact I.
Defined.

Lemma load_dump_total_witness :
  let d := mkDatetime 2024 2 29 0 0 0 0 (Some (5 * 3600 + 30 * 60 + 15)) in
  valid d = true
  ∧ ∃ off', load (dump d) = Return (replace_tzinfo d (Some off'))
            ∧ off' = 5 * 3600 + 30 * 60.
Proof.
  intros d. split; [reflexivity|].
  destruct (load_dump_total d eq_refl) as (off' & Hload & _ & Hoff).
  exists off'. split; [exact Hload|]. rewrite Hoff. reflexivity.
Defined.

Lemma negative_offset_misread_witness :
  let d := mkDatetime 2020 1 1 10 0 0 0 (Some (- (3 * 3600 + 30 * 60))) in
  valid d = true
  ∧ load (dump d) = Return (replace_tzinfo d (Some (- (3 * 3600) + 30 * 60))).
Proof.
  intros d. split; [reflexivity|].
  apply (negative_offset_misread d 3 30); [reflexivity | lia | lia | reflexivity].
Defined.

Lemma load_short_text_witness :
  load "20-01-01 10:00" = Return (mkDatetime 20 1 1 10 0 0 0 None).
Proof.
  apply (load_short_text 2 20 1 1 " " 10 0);
    [lia | simpl; lia | by right | reflexivity].
Defined.

Lemma load_fraction_digits_witness :
  load "2020-01-01T10:00:00.5" = Return (mkDatetime 2020 1 1 10 0 0 5 None).
Proof.
  apply (load_fraction_digits 1 2020 1 1 10 0 0 5);
    [lia | simpl; lia | reflexivity].
Defined.

Lemma parse_offset_checked_witness :
  _parse_tzinfo (Some "+22:99"%string) = Return (Some (22 * 3600 + 99 * 60))
  ∧ _parse_tzinfo (Some "-24:30"%string) = Return (Some (- 24 * 3600 + 30 * 60))
  ∧ _parse_tzinfo (Some "+24:00"%string)
    = ValueError "offset must be a timedelta strictly between -24 and 24 hours".
Proof.
  split; [|split].
  - apply (parse_offset_checked false 22 99); lia.
  - apply (parse_offset_checked true 24 30); lia.
  - apply (parse_offset_checked false 24 0); lia.
Defined.
End DateTimeFacts.
